(** * solar-demo: the tariff and energy-allocation engine of [solar.jsx]

    A shallow embedding of the computational core of the solar simulator
    (the tiered tariff helper, the projected usage, [computeFormula],
    the simulation ticks and [calculateFinalReport]) together with the
    properties its specification states about it.

    The program is written once, over an interface of JavaScript numbers
    ([JsNumber]), and read in two models:

    - [Exact]: numbers are rationals ([Q]) and every operation is exact.
      This is the arithmetic the specification reasons in, and the model
      in which the properties are stated and proved.
    - [Binary64]: numbers are IEEE-754 doubles (the kernel's primitive
      floats), the arithmetic a JavaScript engine really performs.  It is
      used to evaluate the code on concrete inputs. *)

From Stdlib Require Import ZArith QArith Qround Qminmax Qabs Lqa Lia List Bool.
From Stdlib Require PrimFloat Uint63 FloatAxioms.
Import ListNotations.

(** ** JavaScript numbers *)

(** The operations on numbers that the program uses.  [lit q] is the
    numeric literal whose decimal notation denotes the rational [q]. *)
Class JsNumber (num : Type) : Type := {
  lit : Q -> num;
  add : num -> num -> num;
  sub : num -> num -> num;
  mul : num -> num -> num;
  div : num -> num -> num;
  (** [a > b], [a <= b], [a >= b] and [a === b] *)
  gtb : num -> num -> bool;
  leb : num -> num -> bool;
  geb : num -> num -> bool;
  strict_eq : num -> num -> bool;
  Math_min : num -> num -> num;
  Math_max : num -> num -> num;
  Math_round : num -> num
}.

Arguments lit {num _} q%_Q.

Declare Scope js_scope.
Delimit Scope js_scope with js.
Infix "+" := add : js_scope.
Infix "-" := sub : js_scope.
Infix "*" := mul : js_scope.
Infix "/" := div : js_scope.
Infix ">?" := gtb (at level 70, no associativity) : js_scope.
Infix "<=?" := leb (at level 70, no associativity) : js_scope.
Infix ">=?" := geb (at level 70, no associativity) : js_scope.
Infix "===" := strict_eq (at level 70, no associativity) : js_scope.

(** ** Data *)

(** One entry of [TARIFF_TIERS].  [limit] is the width of the block;
    [None] stands for [Infinity]. *)
Record Tier (num : Type) : Type := mkTier {
  limit : option num;
  rate : num
}.
Arguments mkTier {num}.
Arguments limit {num}.
Arguments rate {num}.

(** The [audit] state object (the fields the computation reads). *)
Record Audit (num : Type) : Type := mkAudit {
  monthlyKwh : num;
  futureEV : bool;
  futurePool : bool;
  futurePond : bool
}.
Arguments mkAudit {num}.
Arguments monthlyKwh {num}.
Arguments futureEV {num}.
Arguments futurePool {num}.
Arguments futurePond {num}.

(** The component state that [computeFormula] closes over. *)
Record State (num : Type) : Type := mkState {
  audit : Audit num;
  dayUsagePercent : num;
  panelWattage : num;
  panelCount : num;
  hasBattery : bool;
  batteryUnits : num
}.
Arguments mkState {num}.
Arguments audit {num}.
Arguments dayUsagePercent {num}.
Arguments panelWattage {num}.
Arguments panelCount {num}.
Arguments hasBattery {num}.
Arguments batteryUnits {num}.

(** The object returned by [computeFormula]; the fields keep the names
    of the source. *)
Module Formula.
Record t (num : Type) : Type := mk {
  A : num; B : num; C : num; B1 : num; C1 : num;
  D : num; E : num; F : num; G : num;
  H : num; I : num; J : num; K : num;
  dailyTnbKwh : num;
  dailyTnbCost : num;
  dailyExportKwh : num;
  dailyStoredKwh : num;
  monthlyTnbCost : num
}.
Arguments mk {num}.
Arguments A {num}. Arguments B {num}. Arguments C {num}.
Arguments B1 {num}. Arguments C1 {num}. Arguments D {num}.
Arguments E {num}. Arguments F {num}. Arguments G {num}.
Arguments H {num}. Arguments I {num}. Arguments J {num}.
Arguments K {num}.
Arguments dailyTnbKwh {num}.
Arguments dailyTnbCost {num}.
Arguments dailyExportKwh {num}.
Arguments dailyStoredKwh {num}.
Arguments monthlyTnbCost {num}.
End Formula.

(** The accumulator [currentStats] of [runSimulation]. *)
Module Stats.
Record t (num : Type) : Type := mk {
  tankLevel : num;
  gridExport : num;
  gridImport : num;
  solarGenerated : num;
  houseConsumed : num;
  wastedMoney : num
}.
Arguments mk {num}.
Arguments tankLevel {num}.
Arguments gridExport {num}.
Arguments gridImport {num}.
Arguments solarGenerated {num}.
Arguments houseConsumed {num}.
Arguments wastedMoney {num}.
End Stats.

(** The object stored by [setFinalReport]. *)
Module Report.
Record t (num : Type) : Type := mk {
  oldBill : num;
  newBill : num;
  monthlySavings : num;
  totalGenerated : num;
  totalUsed : num;
  totalExported : num;
  lossAmount : num
}.
Arguments mk {num}.
Arguments oldBill {num}.
Arguments newBill {num}.
Arguments monthlySavings {num}.
Arguments totalGenerated {num}.
Arguments totalUsed {num}.
Arguments totalExported {num}.
Arguments lossAmount {num}.
End Report.

(** ** The program *)

Section Program.
Context {num : Type} {JS : JsNumber num}.
Local Open Scope js_scope.

Definition TARIFF_TIERS : list (Tier num) :=
  [ mkTier (Some (lit 200)) (lit 0.218);
    mkTier (Some (lit 100)) (lit 0.334);
    mkTier (Some (lit 300)) (lit 0.516);
    mkTier (Some (lit 300)) (lit 0.546);
    mkTier None (lit 0.571) ].

Definition NEM_EXPORT_RATE : num := lit 0.24.
Definition AVG_GRID_RATE : num := lit 0.45.
Definition SOLAR_YIELD_PER_KW : num := lit 3.5.
Definition TNB_RATE_PER_KWH : num := lit 0.5.
Definition EXPORT_RATE_FACTOR : num := lit 0.7.
Definition BATTERY_EXPORT_FACTOR : num := lit 0.3.
Definition BATTERY_UNIT_KWH : num := lit 10.

(** [Math.min(remaining, tier.limit)]; the minimum with [Infinity] is
    the other argument. *)
Definition min_limit (remaining : num) (l : option num) : num :=
  match l with
  | Some w => Math_min remaining w
  | None => remaining
  end.

(** The [for (const tier of ...)] loop of [calculateKwhToBill], on the
    tiers still to visit and the two loop variables. *)
Fixpoint tierLoop (tiers : list (Tier num)) (remaining totalBill : num) : num :=
  match tiers with
  | [] => totalBill
  | tier :: rest =>
      let amountInTier := min_limit remaining (limit tier) in
      let '(totalBill, remaining) :=
        if amountInTier >? lit 0
        then (totalBill + amountInTier * rate tier, remaining - amountInTier)
        else (totalBill, remaining) in
      if remaining <=? lit 0 then totalBill
      else tierLoop rest remaining totalBill
  end.

Definition calculateKwhToBill (kwh : num) : num :=
  tierLoop TARIFF_TIERS kwh (lit 0).

Definition adjustedMonthlyKwh (a : Audit num) : num :=
  let multiplier := lit 1 in
  let multiplier :=
    if futureEV a then multiplier + lit 0.3 else multiplier in
  let multiplier :=
    if futurePool a then multiplier + lit 0.2 else multiplier in
  let multiplier :=
    if futurePond a then multiplier + lit 0.15 else multiplier in
  Math_round (monthlyKwh a * multiplier).

Definition currentKwhUsage (s : State num) : num :=
  adjustedMonthlyKwh (audit s).

Definition batteryCapacity (s : State num) : num :=
  batteryUnits s * BATTERY_UNIT_KWH.

Definition computeFormula (s : State num) : Formula.t num :=
  let A := currentKwhUsage s in
  let B := (dayUsagePercent s / lit 100) * A in
  let C := A - B in
  let B1 := B / lit 30 in
  let C1 := C / lit 30 in
  let D := panelCount s in
  let E := panelWattage s / lit 1000 in
  let F := SOLAR_YIELD_PER_KW in
  let G := D * E * F in
  let H := if hasBattery s then batteryUnits s else lit 0 in
  let I := BATTERY_UNIT_KWH in
  let J := H * I in
  let K := TNB_RATE_PER_KWH in
  let '(dailyTnbKwh, dailyExportKwh, dailyStoredKwh) :=
    if B1 >? G then
      ((B1 - G) + C1, lit 0, lit 0)
    else
      let excess := G - B1 in
      if H === lit 0 then
        let dailyExportKwh := excess in
        let credit := excess * K * EXPORT_RATE_FACTOR in
        let cost := Math_max (lit 0) ((C1 * K) - credit) in
        (cost / K, dailyExportKwh, lit 0)
      else
        let dailyStoredKwh := Math_min excess J in
        let remainingExcess := Math_max (lit 0) (excess - J) in
        let dailyExportKwh :=
          if remainingExcess >? lit 0 then remainingExcess else lit 0 in
        let cost :=
          Math_max (lit 0)
            ((Math_max (lit 0) (C1 - dailyStoredKwh) * K)
             - (dailyExportKwh * K * BATTERY_EXPORT_FACTOR)) in
        (cost / K, dailyExportKwh, dailyStoredKwh) in
  let dailyTnbCost := dailyTnbKwh * K in
  let monthlyTnbCost := dailyTnbCost * lit 30 in
  Formula.mk A B C B1 C1 D E F G H I J K
    dailyTnbKwh dailyTnbCost dailyExportKwh dailyStoredKwh monthlyTnbCost.

Definition calculateFinalReport (s : State num) (stats : Stats.t num)
  : Report.t num :=
  let formula := computeFormula s in
  let oldBill := Formula.A formula * Formula.K formula in
  let newBill := Formula.monthlyTnbCost formula in
  let potentialValueIfUsed := Stats.gridExport stats * AVG_GRID_RATE in
  let actualValueSold := Stats.gridExport stats * NEM_EXPORT_RATE in
  let lossAmount := potentialValueIfUsed - actualValueSold in
  let monthlySavings := oldBill - newBill in
  Report.mk oldBill newBill monthlySavings
    (Stats.solarGenerated stats)
    (Stats.houseConsumed stats - Stats.gridImport stats)
    (Stats.gridExport stats)
    lossAmount.

(** The initial value of [currentStats] in [runSimulation]. *)
Definition initialStats : Stats.t num :=
  Stats.mk (lit 0) (lit 0) (lit 0) (lit 0) (lit 0) (lit 0).

Definition totalDays : num := lit 30.

(** The accumulation done by one firing of the interval callback. *)
Definition accumulate (s : State num) (currentStats : Stats.t num)
  : Stats.t num :=
  let formula := computeFormula s in
  let dailySolar := Formula.G formula in
  let dailyConsumption := Formula.A formula / lit 30 in
  let imported := Formula.dailyTnbKwh formula in
  let exported := Formula.dailyExportKwh formula in
  Stats.mk
    (if hasBattery s && (batteryCapacity s >? lit 0)
     then (Formula.dailyStoredKwh formula / batteryCapacity s) * lit 100
     else lit 0)
    (Stats.gridExport currentStats + exported / lit 2)
    (Stats.gridImport currentStats + imported / lit 2)
    (Stats.solarGenerated currentStats + dailySolar / lit 2)
    (Stats.houseConsumed currentStats + dailyConsumption / lit 2)
    (Stats.wastedMoney currentStats).

(** The firings of the interval callback of [runSimulation], at most
    [fuel] of them, from the loop variables [day] and [currentStats]:
    the snapshots passed to [setSimStats], and the final report once
    the interval has been cleared ([None] while it is still running). *)
Fixpoint ticks (fuel : nat) (s : State num) (day : num)
    (currentStats : Stats.t num)
  : list (Stats.t num) * option (Report.t num) :=
  match fuel with
  | O => ([], None)
  | S fuel' =>
      let day := day + lit 0.5 in
      let currentStats := accumulate s currentStats in
      if day >=? totalDays
      then ([currentStats], Some (calculateFinalReport s currentStats))
      else
        let '(snaps, report) := ticks fuel' s day currentStats in
        (currentStats :: snaps, report)
  end.

Definition runSimulation (fuel : nat) (s : State num)
  : list (Stats.t num) * option (Report.t num) :=
  ticks fuel s (lit 0) initialStats.

End Program.

(** ** The exact model: rationals *)

(** Every divisor of the program is a non-zero constant, except the
    battery capacity in [accumulate], which is divided by only when it is
    positive: the value that [Qdiv] gives to a quotient by zero is never
    used. *)

Module Exact.

(** [Math.round]: the nearest integer, a tie going up. *)
Definition round (x : Q) : Q := inject_Z (Qfloor (x + (1 # 2))%Q).

#[global] Instance QNumber : JsNumber Q := {
  lit q := q;
  add := Qplus;
  sub := Qminus;
  mul := Qmult;
  div := Qdiv;
  gtb a b := negb (Qle_bool a b);
  leb a b := Qle_bool a b;
  geb a b := Qle_bool b a;
  strict_eq a b := Qeq_bool a b;
  Math_min := Qmin;
  Math_max := Qmax;
  Math_round := round
}.

(** A tariff table none of whose rates is negative. *)
Definition rates_nonneg (tiers : list (Tier Q)) : Prop :=
  Forall (fun tier => (0 <= rate tier)%Q) tiers.

(** A tariff table none of whose limits is negative. *)
Definition limits_nonneg (tiers : list (Tier Q)) : Prop :=
  Forall (fun tier =>
            match limit tier with Some w => (0 <= w)%Q | None => True end)
    tiers.

(** The block tariff in the words of the specification: each tier prices
    the part of the consumption that falls in its band, the part beyond
    the band going to the tiers that follow; an unbounded tier prices all
    that is left. *)
Fixpoint blockSum (tiers : list (Tier Q)) (kwh : Q) : Q :=
  match tiers with
  | [] => 0
  | tier :: rest =>
      match limit tier with
      | Some w =>
          (rate tier * Qmin kwh w + blockSum rest (Qmax 0 (kwh - w)))%Q
      | None => (rate tier * kwh)%Q
      end
  end.

(** What the battery fill indicator of a snapshot has to be. *)
Definition tank_level_guarded (s : State Q) (snapshot : Stats.t Q) : Prop :=
  (hasBattery s = true -> (0 < batteryCapacity s)%Q ->
   Stats.tankLevel snapshot
   = (Formula.dailyStoredKwh (computeFormula s) / batteryCapacity s * 100)%Q)
  /\
  (hasBattery s = false \/ (batteryCapacity s == 0)%Q ->
   Stats.tankLevel snapshot = 0%Q).

(** A flag counts for 1 when it is set and for 0 otherwise. *)
Definition flag (b : bool) : Q := if b then 1 else 0.

(** The future-load multiplier in the words of the specification:
    [1 + 0.3·EV + 0.2·pool + 0.15·pond]. *)
Definition spec_multiplier (a : Audit Q) : Q :=
  (1 + 0.3 * flag (futureEV a) + 0.2 * flag (futurePool a)
   + 0.15 * flag (futurePond a))%Q.

End Exact.

(** ** The machine model: IEEE-754 doubles *)

Module Binary64.

Definition float : Set := PrimFloat.float.

(** An integer of magnitude below [2^63], as a double. *)
Definition of_Z (z : Z) : float :=
  match z with
  | Z0 => PrimFloat.zero
  | Zpos _ => PrimFloat.of_uint63 (Uint63.of_Z z)
  | Zneg p => PrimFloat.opp (PrimFloat.of_uint63 (Uint63.of_Z (Zpos p)))
  end.

(** A numeric literal is the double nearest to the rational it denotes;
    for a numerator and a denominator that are doubles themselves (every
    literal of the program) that is their correctly rounded quotient. *)
Definition literal (q : Q) : float :=
  PrimFloat.div (of_Z (Qnum q)) (of_Z (Zpos (Qden q))).

(** [Math.min] and [Math.max]: [NaN] if an argument is, and [-0] below
    [+0]. *)
Definition min (a b : float) : float :=
  if PrimFloat.is_nan a || PrimFloat.is_nan b then PrimFloat.nan
  else if PrimFloat.ltb a b then a
  else if PrimFloat.ltb b a then b
  else if PrimFloat.get_sign a then a else b.

Definition max (a b : float) : float :=
  if PrimFloat.is_nan a || PrimFloat.is_nan b then PrimFloat.nan
  else if PrimFloat.ltb a b then b
  else if PrimFloat.ltb b a then a
  else if PrimFloat.get_sign a then b else a.

Definition two52 : float := PrimFloat.of_uint63 (Uint63.of_Z 4503599627370496).
Definition half : float := PrimFloat.div PrimFloat.one PrimFloat.two.

(** [Math.round]: the nearest integer, a tie going up; the sign of the
    argument is kept on a zero result.  A double of magnitude [2^52] or
    more is an integer; below, [r] is the integer nearest to [x] (adding
    and removing [2^52] rounds to an integer) and [f] is the floor of
    [x]. *)
Definition round (x : float) : float :=
  if PrimFloat.is_nan x || PrimFloat.is_infinity x then x
  else if PrimFloat.leb two52 (PrimFloat.abs x) then x
  else
    let r :=
      if PrimFloat.ltb x PrimFloat.zero
      then PrimFloat.add (PrimFloat.sub x two52) two52
      else PrimFloat.sub (PrimFloat.add x two52) two52 in
    let f := if PrimFloat.ltb x r then PrimFloat.sub r PrimFloat.one else r in
    let y :=
      if PrimFloat.leb half (PrimFloat.sub x f)
      then PrimFloat.add f PrimFloat.one else f in
    if PrimFloat.is_zero y && PrimFloat.get_sign x
    then PrimFloat.neg_zero else y.

#[global] Instance F64Number : JsNumber float := {
  lit := literal;
  add := PrimFloat.add;
  sub := PrimFloat.sub;
  mul := PrimFloat.mul;
  div := PrimFloat.div;
  gtb a b := PrimFloat.ltb b a;
  leb a b := PrimFloat.leb a b;
  geb a b := PrimFloat.leb b a;
  strict_eq a b := PrimFloat.eqb a b;
  Math_min := min;
  Math_max := max;
  Math_round := round
}.

(** Two doubles less than [1e-9] apart. *)
Definition close (a b : float) : bool :=
  PrimFloat.ltb (PrimFloat.abs (PrimFloat.sub a b))
    (literal (1 # 1000000000)).

(** What the battery fill indicator of a snapshot has to be, in doubles:
    the quotient when there is a battery of a positive capacity, and
    [+0], no [NaN] and no infinity, when there is no battery or the
    capacity is zero, negative or [NaN]. *)
Definition tank_level_guarded (s : State float) (snapshot : Stats.t float)
  : Prop :=
  (hasBattery s = true ->
   PrimFloat.ltb PrimFloat.zero (batteryCapacity s) = true ->
   Stats.tankLevel snapshot
   = mul (div (Formula.dailyStoredKwh (computeFormula s)) (batteryCapacity s))
       (lit 100))
  /\
  (hasBattery s = false
   \/ PrimFloat.leb (batteryCapacity s) PrimFloat.zero = true
   \/ PrimFloat.is_nan (batteryCapacity s) = true ->
   Stats.tankLevel snapshot = PrimFloat.zero).

End Binary64.

(** ** Configurations used in the examples *)

Section Configurations.
Context {num : Type} {JS : JsNumber num}.

(** The initial state of the component: 900 kWh a month, 60 % of it by
    day, twelve 615 W panels, no battery. *)
Definition scenario : State num :=
  mkState (mkAudit (lit 900) false false false)
    (lit 60) (lit 615) (lit 12) false (lit 1).

(** The same household with the battery switched on. *)
Definition scenario_battery (units : num) : State num :=
  mkState (mkAudit (lit 900) false false false)
    (lit 60) (lit 615) (lit 12) true units.

(** A household whose panels do not cover the daytime load. *)
Definition scenario_small : State num :=
  mkState (mkAudit (lit 900) false false false)
    (lit 60) (lit 615) (lit 6) false (lit 1).

(** Forty panels and one battery unit: the excess overflows the battery. *)
Definition scenario_surplus : State num :=
  mkState (mkAudit (lit 900) false false false)
    (lit 60) (lit 615) (lit 40) true (lit 1).

(** The battery switched on with no unit in it. *)
Definition scenario_empty_battery : State num :=
  mkState (mkAudit (lit 900) false false false)
    (lit 60) (lit 615) (lit 12) true (lit 0).

End Configurations.

(** ** The shape of [computeFormula], in any model of numbers *)

Section Shape.
Context {num : Type} {JS : JsNumber num}.
Local Open Scope js_scope.

Ltac split_branches :=
  unfold computeFormula in *; cbv zeta in *;
  repeat match goal with
    | |- context [if ?b then _ else _] =>
        let E := fresh "E" in destruct b eqn:E
    end;
  cbn in *.

(** The fields that do not depend on the branch taken. *)
Lemma computeFormula_inputs (s : State num) :
  let f := computeFormula s in
  Formula.A f = currentKwhUsage s /\
  Formula.B f = (dayUsagePercent s / lit 100) * Formula.A f /\
  Formula.C f = Formula.A f - Formula.B f /\
  Formula.B1 f = Formula.B f / lit 30 /\
  Formula.C1 f = Formula.C f / lit 30 /\
  Formula.D f = panelCount s /\
  Formula.E f = panelWattage s / lit 1000 /\
  Formula.F f = SOLAR_YIELD_PER_KW /\
  Formula.G f = Formula.D f * Formula.E f * Formula.F f /\
  Formula.H f = (if hasBattery s then batteryUnits s else lit 0) /\
  Formula.I f = BATTERY_UNIT_KWH /\
  Formula.J f = Formula.H f * Formula.I f /\
  Formula.K f = TNB_RATE_PER_KWH.
Proof. split_branches; repeat split; reflexivity. Qed.

(** The two costs are derived from the billed energy of the day. *)
Lemma computeFormula_costs (s : State num) :
  let f := computeFormula s in
  Formula.dailyTnbCost f = Formula.dailyTnbKwh f * Formula.K f /\
  Formula.monthlyTnbCost f = Formula.dailyTnbCost f * lit 30.
Proof. split_branches; repeat split; reflexivity. Qed.

(** Branch [B1 > G]. *)
Lemma computeFormula_shortfall (s : State num) :
  let f := computeFormula s in
  (Formula.B1 f >? Formula.G f) = true ->
  Formula.dailyTnbKwh f = (Formula.B1 f - Formula.G f) + Formula.C1 f /\
  Formula.dailyExportKwh f = lit 0 /\
  Formula.dailyStoredKwh f = lit 0.
Proof. split_branches; intros; repeat split; congruence. Qed.

(** Branch [H === 0] of the [else]. *)
Lemma computeFormula_export (s : State num) :
  let f := computeFormula s in
  let excess := Formula.G f - Formula.B1 f in
  (Formula.B1 f >? Formula.G f) = false ->
  (Formula.H f === lit 0) = true ->
  Formula.dailyExportKwh f = excess /\
  Formula.dailyTnbKwh f =
    Math_max (lit 0)
      ((Formula.C1 f * Formula.K f)
       - excess * Formula.K f * EXPORT_RATE_FACTOR) / Formula.K f /\
  Formula.dailyStoredKwh f = lit 0.
Proof. split_branches; intros; repeat split; congruence. Qed.

(** The other branch of the [else]. *)
Lemma computeFormula_battery (s : State num) :
  let f := computeFormula s in
  let excess := Formula.G f - Formula.B1 f in
  let remainingExcess := Math_max (lit 0) (excess - Formula.J f) in
  (Formula.B1 f >? Formula.G f) = false ->
  (Formula.H f === lit 0) = false ->
  Formula.dailyStoredKwh f = Math_min excess (Formula.J f) /\
  Formula.dailyExportKwh f =
    (if remainingExcess >? lit 0 then remainingExcess else lit 0) /\
  Formula.dailyTnbKwh f =
    Math_max (lit 0)
      ((Math_max (lit 0) (Formula.C1 f - Formula.dailyStoredKwh f)
        * Formula.K f)
       - (Formula.dailyExportKwh f * Formula.K f * BATTERY_EXPORT_FACTOR))
    / Formula.K f.
Proof. split_branches; intros; repeat split; congruence. Qed.

(** Every snapshot of a run is the accumulation of a tick. *)
Lemma ticks_snapshots (s : State num) (fuel : nat) :
  forall day currentStats,
    Forall (fun snapshot => exists previous, snapshot = accumulate s previous)
      (fst (ticks fuel s day currentStats)).
Proof.
  induction fuel as [|fuel IH]; intros day stats; cbn [ticks].
  - constructor.
  - destruct (day + lit 0.5 >=? totalDays).
    + repeat constructor. exists stats. reflexivity.
    + specialize (IH (day + lit 0.5) (accumulate s stats)).
      destruct (ticks fuel s (day + lit 0.5) (accumulate s stats)).
      constructor; [exists stats; reflexivity | exact IH].
Qed.

End Shape.

(** ** Properties, in the exact model *)

Section ExactFacts.
Import Exact.
Local Open Scope Q_scope.

Lemma gtb_true (a b : Q) : gtb a b = true <-> b < a.
Proof.
  cbn. rewrite negb_true_iff, <- not_true_iff_false, Qle_bool_iff.
  split; [apply Qnot_le_lt | apply Qlt_not_le].
Qed.

Lemma gtb_false (a b : Q) : gtb a b = false <-> a <= b.
Proof. cbn. rewrite negb_false_iff. apply Qle_bool_iff. Qed.

Lemma leb_true (a b : Q) : leb a b = true <-> a <= b.
Proof. apply Qle_bool_iff. Qed.

Lemma leb_false (a b : Q) : leb a b = false <-> b < a.
Proof.
  cbn. rewrite <- not_true_iff_false, Qle_bool_iff.
  split; [apply Qnot_le_lt | apply Qlt_not_le].
Qed.

Lemma geb_true (a b : Q) : geb a b = true <-> b <= a.
Proof. apply Qle_bool_iff. Qed.

Lemma strict_eq_true (a b : Q) : strict_eq a b = true <-> a == b.
Proof. apply Qeq_bool_iff. Qed.

Lemma strict_eq_false (a b : Q) : strict_eq a b = false <-> ~ a == b.
Proof. cbn. rewrite <- not_true_iff_false, Qeq_bool_iff. tauto. Qed.

(** The loads and the generation of a day, from the configuration. *)
Lemma computeFormula_loads (s : State Q) :
  let f := computeFormula s in
  Formula.B1 f = dayUsagePercent s / 100 * currentKwhUsage s / 30 /\
  Formula.C1 f
  = (currentKwhUsage s - dayUsagePercent s / 100 * currentKwhUsage s) / 30 /\
  Formula.G f = panelCount s * (panelWattage s / 1000) * 3.5.
Proof.
  intros f.
  destruct (computeFormula_inputs s)
    as (HA & HB & HC & HB1 & HC1 & HD & HE & HF & HG & _).
  fold f in HA, HB, HC, HB1, HC1, HD, HE, HF, HG.
  rewrite HG, HD, HE, HF, HB1, HC1, HC, HB, HA.
  repeat split; reflexivity.
Qed.

(** C3: when the daytime load of a day (the day share of the projected
    usage, over 30) strictly exceeds the solar generation of the day
    (panels times kWp a panel times 3.5), the billed energy is the
    daytime shortfall plus the whole night load, its cost is that energy
    at the flat rate of 0.5, and nothing is exported or stored. *)
Theorem shortfall_and_night_load_are_billed (s : State Q) :
  let f := computeFormula s in
  let usage := currentKwhUsage s in
  let dayDaily := dayUsagePercent s / 100 * usage / 30 in
  let nightDaily := (usage - dayUsagePercent s / 100 * usage) / 30 in
  let solarDaily := panelCount s * (panelWattage s / 1000) * 3.5 in
  solarDaily < dayDaily ->
  Formula.dailyTnbKwh f = (dayDaily - solarDaily) + nightDaily /\
  Formula.dailyTnbCost f = ((dayDaily - solarDaily) + nightDaily) * 0.5 /\
  Formula.dailyExportKwh f = 0 /\
  Formula.dailyStoredKwh f = 0.
Proof.
  intros f usage dayDaily nightDaily solarDaily Hlt.
  destruct (computeFormula_loads s) as (HB1 & HC1 & HG).
  fold f usage in HB1, HC1, HG.
  fold dayDaily in HB1. fold nightDaily in HC1. fold solarDaily in HG.
  rewrite <- HB1, <- HG in Hlt. apply gtb_true in Hlt.
  destruct (computeFormula_shortfall s Hlt) as (Hk & He & Hs).
  destruct (computeFormula_costs s) as (Hc & _).
  destruct (computeFormula_inputs s) as (_&_&_&_&_&_&_&_&_&_&_&_&HK).
  fold f in Hk, He, Hs, Hc, HK.
  rewrite HB1, HG, HC1 in Hk.
  repeat split; try assumption.
  rewrite Hc, Hk, HK. reflexivity.
Qed.

(** Six panels of 615 W generate 12.915 kWh a day against a daytime load
    of 18 kWh: 5.085 + 12 = 17.085 kWh are billed, for 8.5425 a day. *)
Lemma shortfall_and_night_load_are_billed_witness :
  let s := scenario_small (num := Q) in
  let f := computeFormula s in
  let usage := currentKwhUsage s in
  let dayDaily := dayUsagePercent s / 100 * usage / 30 in
  let nightDaily := (usage - dayUsagePercent s / 100 * usage) / 30 in
  let solarDaily := panelCount s * (panelWattage s / 1000) * 3.5 in
  (solarDaily == 12.915 /\ dayDaily == 18 /\ nightDaily == 12) /\
  solarDaily < dayDaily /\
  (Formula.dailyTnbKwh f = (dayDaily - solarDaily) + nightDaily /\
   Formula.dailyTnbCost f = ((dayDaily - solarDaily) + nightDaily) * 0.5 /\
   Formula.dailyExportKwh f = 0 /\
   Formula.dailyStoredKwh f = 0) /\
  Formula.dailyTnbKwh f == 17.085 /\
  Formula.dailyTnbCost f == 8.5425.
Proof.
  cbv zeta.
  split; [repeat split; vm_compute; reflexivity |].
  split; [vm_compute; reflexivity |].
  split.
  - apply (shortfall_and_night_load_are_billed scenario_small).
    vm_compute. reflexivity.
  - split; vm_compute; reflexivity.
Defined.

Lemma flat_rate_cancels (x : Q) :
  x / TNB_RATE_PER_KWH * TNB_RATE_PER_KWH == x.
Proof. unfold TNB_RATE_PER_KWH. cbn. field. Qed.

(** C1: when the solar generation of a day (panels times kWp a panel
    times 3.5) is at least the daytime load (the day share of the
    projected usage, over 30) and there is no battery, or one of no
    units, the whole excess is exported and nothing is stored; the
    billed energy is the night cost less the export credit (the excess
    at 0.7 of the flat rate of 0.5), clamped at zero after the
    subtraction, and divided by the flat rate. *)
Theorem excess_is_exported_without_battery (s : State Q) :
  let f := computeFormula s in
  let usage := currentKwhUsage s in
  let dayDaily := dayUsagePercent s / 100 * usage / 30 in
  let nightDaily := (usage - dayUsagePercent s / 100 * usage) / 30 in
  let solarDaily := panelCount s * (panelWattage s / 1000) * 3.5 in
  let excess := solarDaily - dayDaily in
  let flatRate := 0.5 in
  dayDaily <= solarDaily ->
  hasBattery s = false \/ batteryUnits s == 0 ->
  Formula.dailyExportKwh f = excess /\
  Formula.dailyStoredKwh f = 0 /\
  Formula.dailyTnbKwh f
    = Qmax 0 (nightDaily * flatRate - excess * flatRate * 0.7) / flatRate /\
  Formula.dailyTnbCost f
    == Qmax 0 (nightDaily * flatRate - excess * flatRate * 0.7).
Proof.
  intros f usage dayDaily nightDaily solarDaily excess flatRate Hle Hb.
  destruct (computeFormula_loads s) as (HB1 & HC1 & HG).
  fold f usage in HB1, HC1, HG.
  fold dayDaily in HB1. fold nightDaily in HC1. fold solarDaily in HG.
  destruct (computeFormula_inputs s) as (_&_&_&_&_&_&_&_&_&HH&_&_&HK).
  destruct (computeFormula_costs s) as (Hc & _).
  fold f in HH, HK, Hc.
  rewrite <- HB1, <- HG in Hle. apply gtb_false in Hle.
  assert (H0 : strict_eq (Formula.H f) (lit 0) = true).
  { rewrite HH. destruct Hb as [Hb | Hb].
    - rewrite Hb. reflexivity.
    - destruct (hasBattery s); [| reflexivity].
      apply strict_eq_true. exact Hb. }
  destruct (computeFormula_export s Hle H0) as (He & Hk & Hs).
  fold f in He, Hk, Hs. rewrite HK, HB1, HG, HC1 in Hk. rewrite HB1, HG in He.
  split; [exact He |]. split; [exact Hs |]. split; [exact Hk |].
  rewrite Hc, Hk, HK. apply flat_rate_cancels.
Qed.

(** Twelve panels of 615 W and no battery: of the 25.83 kWh of a day
    7.83 are exported, and 6.519 kWh are billed for the night load of
    12 kWh, that is 3.2595 a day. *)
Lemma excess_is_exported_without_battery_witness :
  let s := scenario (num := Q) in
  let f := computeFormula s in
  let usage := currentKwhUsage s in
  let dayDaily := dayUsagePercent s / 100 * usage / 30 in
  let nightDaily := (usage - dayUsagePercent s / 100 * usage) / 30 in
  let solarDaily := panelCount s * (panelWattage s / 1000) * 3.5 in
  let excess := solarDaily - dayDaily in
  let flatRate := 0.5 in
  (solarDaily == 25.83 /\ dayDaily == 18 /\ nightDaily == 12) /\
  (dayDaily <= solarDaily /\ hasBattery s = false) /\
  (Formula.dailyExportKwh f = excess /\
   Formula.dailyStoredKwh f = 0 /\
   Formula.dailyTnbKwh f
     = Qmax 0 (nightDaily * flatRate - excess * flatRate * 0.7) / flatRate /\
   Formula.dailyTnbCost f
     == Qmax 0 (nightDaily * flatRate - excess * flatRate * 0.7)) /\
  Formula.dailyExportKwh f == 7.83 /\
  Formula.dailyTnbKwh f == 6.519 /\
  Formula.dailyTnbCost f == 3.2595.
Proof.
  cbv zeta.
  split; [repeat split; vm_compute; reflexivity |].
  split; [split; [vm_compute; discriminate | reflexivity] |].
  split.
  - apply (excess_is_exported_without_battery scenario).
    + vm_compute. discriminate.
    + left. reflexivity.
  - repeat split; vm_compute; reflexivity.
Defined.

(** The export of the battery branch is the part of the excess beyond
    the capacity. *)
Lemma positive_part_guard (x : Q) :
  (if gtb (Qmax 0 x) 0 then Qmax 0 x else 0) == Qmax 0 x.
Proof.
  destruct (gtb (Qmax 0 x) 0) eqn:E; [reflexivity |].
  apply gtb_false in E. apply Qle_antisym; [apply Q.le_max_l | exact E].
Qed.

(** C2: with a battery of some units, when the solar generation of a day
    (panels times kWp a panel times 3.5) is at least the daytime load
    (the day share of the projected usage, over 30), the excess charges
    the battery up to its capacity (10 kWh a unit) and only the
    remainder is exported; a capacity of at least the excess stores all
    of it and exports nothing, a smaller one is filled exactly; and the
    cost of the day is the unmet night load at the flat rate of 0.5 less
    the export at 0.3 of the flat rate, clamped at zero. *)
Theorem excess_charges_battery_before_export (s : State Q) :
  let f := computeFormula s in
  let usage := currentKwhUsage s in
  let dayDaily := dayUsagePercent s / 100 * usage / 30 in
  let nightDaily := (usage - dayUsagePercent s / 100 * usage) / 30 in
  let solarDaily := panelCount s * (panelWattage s / 1000) * 3.5 in
  let excess := solarDaily - dayDaily in
  let capacity := batteryUnits s * 10 in
  let stored := Formula.dailyStoredKwh f in
  let exported := Formula.dailyExportKwh f in
  let flatRate := 0.5 in
  dayDaily <= solarDaily ->
  hasBattery s = true ->
  ~ batteryUnits s == 0 ->
  batteryCapacity s = capacity /\
  stored = Qmin excess capacity /\
  exported == Qmax 0 (excess - capacity) /\
  (excess <= capacity -> exported == 0 /\ stored == excess) /\
  (capacity < excess -> stored == capacity /\ exported == excess - capacity) /\
  Formula.dailyTnbCost f
    == Qmax 0 (Qmax 0 (nightDaily - stored) * flatRate
               - exported * flatRate * 0.3).
Proof.
  intros f usage dayDaily nightDaily solarDaily excess capacity stored
    exported flatRate Hle Hb Hu.
  destruct (computeFormula_loads s) as (HB1 & HC1 & HG).
  fold f usage in HB1, HC1, HG.
  fold dayDaily in HB1. fold nightDaily in HC1. fold solarDaily in HG.
  destruct (computeFormula_inputs s) as (_&_&_&_&_&_&_&_&_&HH&HI&HJ&HK).
  destruct (computeFormula_costs s) as (Hc & _).
  fold f in HH, HI, HJ, HK, Hc. rewrite Hb in HH.
  assert (HJc : Formula.J f = capacity)
    by (rewrite HJ, HH, HI; reflexivity).
  rewrite <- HB1, <- HG in Hle. apply gtb_false in Hle.
  assert (H0 : strict_eq (Formula.H f) (lit 0) = false)
    by (rewrite HH; apply strict_eq_false; exact Hu).
  destruct (computeFormula_battery s Hle H0) as (Hs & He & Hk).
  fold f in Hs, He, Hk. rewrite HJc, HB1, HG in Hs, He.
  rewrite HC1 in Hk. fold excess in Hs, He.
  fold stored in Hs, Hk. fold exported in He, Hk.
  assert (Hex : exported == Qmax 0 (excess - capacity))
    by (rewrite He; apply positive_part_guard).
  split; [reflexivity |]. split; [exact Hs |]. split; [exact Hex |].
  split; [| split].
  - intros Hcap. split.
    + rewrite Hex. apply Q.max_l. lra.
    + rewrite Hs. apply Q.min_l. exact Hcap.
  - intros Hcap. split.
    + rewrite Hs. apply Q.min_r. apply Qlt_le_weak. exact Hcap.
    + rewrite Hex. apply Q.max_r. lra.
  - rewrite Hc, Hk, HK. apply flat_rate_cancels.
Qed.

(** Twelve panels of 615 W and one battery unit: the excess of 7.83 kWh
    fits in the 10 kWh of the battery, nothing is exported, and the
    4.17 kWh of the night load that the battery does not cover cost
    2.085 a day. *)
Lemma excess_charges_battery_before_export_witness :
  let s := scenario_battery (num := Q) 1 in
  let f := computeFormula s in
  let usage := currentKwhUsage s in
  let dayDaily := dayUsagePercent s / 100 * usage / 30 in
  let nightDaily := (usage - dayUsagePercent s / 100 * usage) / 30 in
  let solarDaily := panelCount s * (panelWattage s / 1000) * 3.5 in
  let excess := solarDaily - dayDaily in
  let capacity := batteryUnits s * 10 in
  let stored := Formula.dailyStoredKwh f in
  let exported := Formula.dailyExportKwh f in
  let flatRate := 0.5 in
  (excess == 7.83 /\ capacity == 10 /\ nightDaily == 12) /\
  (dayDaily <= solarDaily /\ hasBattery s = true
   /\ ~ batteryUnits s == 0) /\
  (batteryCapacity s = capacity /\
   stored = Qmin excess capacity /\
   exported == Qmax 0 (excess - capacity) /\
   (excess <= capacity -> exported == 0 /\ stored == excess) /\
   (capacity < excess -> stored == capacity /\ exported == excess - capacity) /\
   Formula.dailyTnbCost f
     == Qmax 0 (Qmax 0 (nightDaily - stored) * flatRate
                - exported * flatRate * 0.3)) /\
  stored == 7.83 /\ exported == 0 /\ Formula.dailyTnbCost f == 2.085.
Proof.
  cbv zeta.
  split; [repeat split; vm_compute; reflexivity |].
  split.
  { split; [vm_compute; discriminate |].
    split; [reflexivity | vm_compute; discriminate]. }
  split.
  - apply (excess_charges_battery_before_export (scenario_battery 1)).
    + vm_compute. discriminate.
    + reflexivity.
    + vm_compute. discriminate.
  - repeat split; vm_compute; reflexivity.
Defined.

(** *** The tiered tariff *)

Ltac qnum := cbn [add sub mul div lit Math_min Math_max QNumber] in *.

Ltac to_order :=
  repeat match goal with
    | H : gtb _ _ = true |- _ => apply gtb_true in H
    | H : gtb _ _ = false |- _ => apply gtb_false in H
    | H : leb _ _ = true |- _ => apply leb_true in H
    | H : leb _ _ = false |- _ => apply leb_false in H
    end.

(** C5: the tariff of no energy is 0, and at the boundaries of the
    blocks (200, 300, 600 and 900 kWh) and beyond the last one the
    tariff is the sum of the blocks of the table, of widths 200, 100,
    300, 300 and unbounded, at the rates 0.218, 0.334, 0.516, 0.546 and
    0.571. *)
Theorem tariff_at_tier_boundaries :
  calculateKwhToBill 0 == 0 /\
  calculateKwhToBill 200 == 200 * 0.218 /\
  200 * 0.218 == 43.6 /\
  calculateKwhToBill 300 == 43.6 + 100 * 0.334 /\
  calculateKwhToBill 600 == 43.6 + 100 * 0.334 + 300 * 0.516 /\
  calculateKwhToBill 900
    == 43.6 + 100 * 0.334 + 300 * 0.516 + 300 * 0.546 /\
  calculateKwhToBill 1000
    == 43.6 + 100 * 0.334 + 300 * 0.516 + 300 * 0.546 + 100 * 0.571.
Proof. repeat split; vm_compute; reflexivity. Qed.

(** The amount that falls in a block grows with the energy left to
    bill, and so does what is left after the block. *)
Lemma min_limit_mono (l : option Q) (r r' : Q) :
  r <= r' ->
  min_limit r l <= min_limit r' l /\
  r - min_limit r l <= r' - min_limit r' l /\
  (min_limit r l <= 0 -> 0 < min_limit r' l -> r <= 0).
Proof.
  intros Hr. destruct l as [w|]; cbn [min_limit]; qnum.
  - destruct (Q.min_spec r w) as [(?, E)|(?, E)];
      destruct (Q.min_spec r' w) as [(?, E')|(?, E')];
      rewrite E, E'; repeat split; intros; lra.
  - repeat split; intros; lra.
Qed.

Definition rates_nonneg (tiers : list (Tier Q)) : Prop :=
  Forall (fun tier => 0 <= rate tier) tiers.

Ltac case_if E :=
  match goal with
  | |- context [if ?b then _ else _] => destruct b eqn:E
  end; to_order; qnum.

(** The loop only adds to the bill. *)
Lemma tierLoop_ge_bill (tiers : list (Tier Q)) :
  rates_nonneg tiers ->
  forall remaining totalBill,
    totalBill <= tierLoop tiers remaining totalBill.
Proof.
  induction tiers as [|tier rest IH]; intros Hr r t; cbn [tierLoop].
  - apply Qle_refl.
  - inversion Hr as [|? ? Hrate Hrest]; subst.
    specialize (IH Hrest).
    set (a := min_limit r (limit tier)).
    case_if Ea.
    + assert (0 <= a * rate tier)
        by (apply Qmult_le_0_compat; [apply Qlt_le_weak|]; assumption).
      case_if El.
      * lra.
      * eapply Qle_trans; [| apply IH]. lra.
    + case_if El; [apply Qle_refl | apply IH].
Qed.

(** The loop is monotone in both of its variables, for any table whose
    rates are not negative. *)
Lemma tierLoop_mono (tiers : list (Tier Q)) :
  rates_nonneg tiers ->
  forall r r' t t',
    r <= r' -> t <= t' -> tierLoop tiers r t <= tierLoop tiers r' t'.
Proof.
  induction tiers as [|tier rest IH]; intros Hr r r' t t' Hrr Htt;
    cbn [tierLoop].
  - exact Htt.
  - inversion Hr as [|? ? Hrate Hrest]; subst.
    specialize (IH Hrest).
    destruct (min_limit_mono (limit tier) r r' Hrr) as (Ha & Hrem & Hneg).
    set (a := min_limit r (limit tier)) in *.
    set (a' := min_limit r' (limit tier)) in *.
    pose proof (Qmult_le_compat_r a a' (rate tier) Ha Hrate) as Hm.
    pose proof (tierLoop_ge_bill rest Hrest) as Hge.
    destruct (gtb a (lit 0)) eqn:Ea; destruct (gtb a' (lit 0)) eqn:Ea';
      to_order; qnum.
    + (* both inputs enter the block *)
      destruct (leb (r - a) 0) eqn:El; destruct (leb (r' - a') 0) eqn:El';
        to_order.
      * lra.
      * eapply Qle_trans; [| apply Hge]. lra.
      * lra.
      * apply IH; lra.
    + lra.
    + (* only the larger input enters the block *)
      assert (Hr0 : r <= 0) by (apply Hneg; assumption).
      assert (0 <= a' * rate tier)
        by (apply Qmult_le_0_compat; [apply Qlt_le_weak|]; assumption).
      apply leb_true in Hr0. rewrite Hr0.
      destruct (leb (r' - a') 0).
      * lra.
      * eapply Qle_trans; [| apply Hge]. lra.
    + destruct (leb r 0) eqn:El; destruct (leb r' 0) eqn:El'; to_order.
      * exact Htt.
      * eapply Qle_trans; [exact Htt | apply Hge].
      * lra.
      * apply IH; assumption.
Qed.

Lemma blockSum_compat (tiers : list (Tier Q)) :
  forall x y, x == y -> blockSum tiers x == blockSum tiers y.
Proof.
  induction tiers as [|tier rest IH]; intros x y E; cbn [blockSum].
  - reflexivity.
  - destruct (limit tier) as [w|].
    + rewrite (IH (Qmax 0 (x - w)) (Qmax 0 (y - w)))
        by (rewrite E; reflexivity).
      rewrite E. reflexivity.
    + rewrite E. reflexivity.
Qed.

Lemma blockSum_zero (tiers : list (Tier Q)) :
  limits_nonneg tiers -> blockSum tiers 0 == 0.
Proof.
  induction tiers as [|tier rest IH]; intros Hl; cbn [blockSum].
  - reflexivity.
  - inversion Hl as [|? ? Hw Hrest]; subst. destruct (limit tier) as [w|].
    + rewrite (blockSum_compat rest (Qmax 0 (0 - w)) 0)
        by (apply Q.max_l; lra).
      rewrite (IH Hrest), Q.min_l by exact Hw. lra.
    + lra.
Qed.

Lemma blockSum_at_zero (tiers : list (Tier Q)) (x : Q) :
  limits_nonneg tiers -> x == 0 -> blockSum tiers x == 0.
Proof.
  intros Hl E. rewrite (blockSum_compat tiers x 0 E). apply blockSum_zero, Hl.
Qed.

(** The loop computes the block tariff, for any table whose limits are
    not negative. *)
Lemma tierLoop_blockSum (tiers : list (Tier Q)) :
  limits_nonneg tiers ->
  forall r t, 0 <= r -> tierLoop tiers r t == t + blockSum tiers r.
Proof.
  induction tiers as [|tier rest IH]; intros Hl r t Hr;
    cbn [tierLoop blockSum].
  - lra.
  - inversion Hl as [|? ? Hw Hrest]; subst. specialize (IH Hrest).
    pose proof (fun x => blockSum_at_zero rest x Hrest) as Hz.
    destruct (limit tier) as [w|]; cbn [min_limit]; qnum.
    + assert (Hm : 0 <= Qmin r w <= r /\ Qmax 0 (r - w) == r - Qmin r w).
      { destruct (Q.min_spec r w) as [(? & Emin)|(? & Emin)];
          destruct (Q.max_spec 0 (r - w)) as [(? & Emax)|(? & Emax)];
          rewrite Emin, Emax; repeat split; lra. }
      destruct Hm as ((Hm0 & Hmr) & Hrem).
      rewrite (blockSum_compat rest _ _ Hrem).
      set (m := Qmin r w) in *.
      case_if Ea; case_if El.
      * assert (E1 : blockSum rest (r - m) == 0) by (apply Hz; lra).
        rewrite E1. lra.
      * assert (E1 : 0 <= r - m) by lra.
        rewrite (IH (r - m) _ E1). lra.
      * assert (E0 : m == 0) by lra.
        assert (E1 : blockSum rest (r - m) == 0) by (apply Hz; lra).
        rewrite E1, E0. lra.
      * assert (E0 : m == 0) by lra.
        assert (E1 : r - m == r) by lra.
        rewrite (IH r _ Hr), (blockSum_compat rest _ _ E1), E0. lra.
    + case_if Ea; case_if El; try lra.
      assert (E0 : r == 0) by lra. rewrite E0. lra.
Qed.

(** The tariff is the block tariff of the table. *)
Lemma calculateKwhToBill_blocks (x : Q) :
  0 <= x ->
  calculateKwhToBill x
  == 0.218 * Qmin x 200
     + 0.334 * Qmin (Qmax 0 (x - 200)) 100
     + 0.516 * Qmin (Qmax 0 (Qmax 0 (x - 200) - 100)) 300
     + 0.546 * Qmin (Qmax 0 (Qmax 0 (Qmax 0 (x - 200) - 100) - 300)) 300
     + 0.571 * Qmax 0 (Qmax 0 (Qmax 0 (Qmax 0 (x - 200) - 100) - 300) - 300).
Proof.
  intros Hx. unfold calculateKwhToBill.
  rewrite tierLoop_blockSum;
    [| repeat constructor; vm_compute; discriminate | exact Hx].
  unfold TARIFF_TIERS. cbn [blockSum limit rate]. qnum. lra.
Qed.
Ltac minmax :=
  repeat match goal with
    | |- context [Qmax ?a ?b] =>
        first [rewrite (Q.max_l a b) by lra | rewrite (Q.max_r a b) by lra]
    | |- context [Qmin ?a ?b] =>
        first [rewrite (Q.min_l a b) by lra | rewrite (Q.min_r a b) by lra]
    end.

(** The tariff, band by band. *)
Lemma calculateKwhToBill_bands (x : Q) :
  (0 <= x <= 200 -> calculateKwhToBill x == 0.218 * x) /\
  (200 <= x <= 300 -> calculateKwhToBill x == 43.6 + 0.334 * (x - 200)) /\
  (300 <= x <= 600 -> calculateKwhToBill x == 77 + 0.516 * (x - 300)) /\
  (600 <= x <= 900 -> calculateKwhToBill x == 231.8 + 0.546 * (x - 600)) /\
  (900 <= x -> calculateKwhToBill x == 395.6 + 0.571 * (x - 900)).
Proof.
  repeat split; intros Hx;
    (rewrite calculateKwhToBill_blocks by lra); minmax; lra.
Qed.


Lemma TARIFF_TIERS_rates_nonneg : rates_nonneg TARIFF_TIERS.
Proof. repeat constructor; vm_compute; discriminate. Qed.

(** C6: the tariff does not decrease when the energy grows. *)
Theorem calculateKwhToBill_monotone (x y : Q) :
  0 <= x -> x <= y -> calculateKwhToBill x <= calculateKwhToBill y.
Proof.
  intros _ Hxy. unfold calculateKwhToBill.
  apply tierLoop_mono;
    [apply TARIFF_TIERS_rates_nonneg | exact Hxy | apply Qle_refl].
Qed.

Lemma calculateKwhToBill_monotone_witness :
  (0 <= 250 /\ 250 <= 650) /\
  calculateKwhToBill 250 <= calculateKwhToBill 650.
Proof.
  split.
  - split; vm_compute; discriminate.
  - apply (calculateKwhToBill_monotone 250 650); vm_compute; discriminate.
Defined.

(** *** The final report *)

(** C7: for an accumulator whose exported energy is not negative, the
    lost value of the final report, the export valued at the blended grid
    rate of 0.45 less the export valued at the export rate of 0.24, is
    not negative. *)
Theorem lossAmount_nonneg (s : State Q) (stats : Stats.t Q) :
  0 <= Stats.gridExport stats ->
  Report.lossAmount (calculateFinalReport s stats)
    = Stats.gridExport stats * 0.45 - Stats.gridExport stats * 0.24 /\
  0 <= Report.lossAmount (calculateFinalReport s stats).
Proof.
  intros Hx. split; [reflexivity |].
  unfold calculateFinalReport, AVG_GRID_RATE, NEM_EXPORT_RATE.
  cbn [Report.lossAmount]. qnum. lra.
Qed.

Lemma lossAmount_nonneg_witness :
  let stats := Stats.mk 0 234.9 195.57 774.9 900 0 in
  0 <= Stats.gridExport stats /\
  Report.lossAmount (calculateFinalReport scenario stats)
    = Stats.gridExport stats * 0.45 - Stats.gridExport stats * 0.24 /\
  0 <= Report.lossAmount (calculateFinalReport scenario stats).
Proof.
  split.
  - vm_compute. discriminate.
  - apply (lossAmount_nonneg scenario (Stats.mk 0 234.9 195.57 774.9 900 0)).
    vm_compute. discriminate.
Defined.

(** *** The projected usage *)

Lemma round_nearest (x : Q) :
  x - (1 # 2) < round x /\ round x <= x + (1 # 2).
Proof.
  unfold round.
  pose proof (Qfloor_le (x + (1 # 2))) as Hl.
  pose proof (Qlt_floor (x + (1 # 2))) as Hu.
  rewrite inject_Z_plus in Hu. change (inject_Z 1) with 1 in Hu.
  split; lra.
Qed.

Lemma round_integer (z : Z) : round (inject_Z z) = inject_Z z.
Proof.
  unfold round. f_equal.
  pose proof (Qfloor_le (inject_Z z + (1 # 2))) as Hl.
  pose proof (Qlt_floor (inject_Z z + (1 # 2))) as Hu.
  set (k := Qfloor (inject_Z z + (1 # 2))) in *.
  assert (H1 : inject_Z k < inject_Z (z + 1))
    by (rewrite inject_Z_plus; change (inject_Z 1) with 1; lra).
  assert (H2 : inject_Z z < inject_Z (k + 1)) by lra.
  rewrite <- Zlt_Qlt in H1, H2. lia.
Qed.

#[local] Instance round_compat : Proper (Qeq ==> Qeq) round.
Proof. intros x y E. unfold round. rewrite E. reflexivity. Qed.

Lemma round_nonneg (x : Q) : 0 <= x -> 0 <= round x.
Proof.
  intros Hx. unfold round. change 0 with (inject_Z 0).
  rewrite <- Zle_Qle. change 0%Z with (Qfloor 0).
  apply Qfloor_resp_le. lra.
Qed.

(** The multiplier built by the code is the one of the specification. *)
Lemma multiplier_is_additive (a : Audit Q) :
  adjustedMonthlyKwh a = round (monthlyKwh a *
    (let m := 1 in
     let m := if futureEV a then m + 0.3 else m in
     let m := if futurePool a then m + 0.2 else m in
     if futurePond a then m + 0.15 else m)) /\
  (let m := 1 in
   let m := if futureEV a then m + 0.3 else m in
   let m := if futurePool a then m + 0.2 else m in
   if futurePond a then m + 0.15 else m) == spec_multiplier a.
Proof.
  split; [reflexivity |].
  unfold spec_multiplier, flag.
  destruct (futureEV a), (futurePool a), (futurePond a); cbv zeta; lra.
Qed.

(** In the exact model the projected monthly usage is the base usage
    times [1 + 0.3·EV + 0.2·pool + 0.15·pond] rounded to the nearest
    integer, a tie going up.  The doubles of the program round the
    product before [Math.round] sees it, and at a tie they can give the
    integer below, see [Binary64UsageFacts]. *)
Lemma exact_projected_usage (a : Audit Q) :
  let product := monthlyKwh a * spec_multiplier a in
  adjustedMonthlyKwh a == round product /\
  (exists z : Z, adjustedMonthlyKwh a = inject_Z z) /\
  product - (1 # 2) < adjustedMonthlyKwh a <= product + (1 # 2) /\
  (forall z : Z, product == inject_Z z -> adjustedMonthlyKwh a == product).
Proof.
  intros product.
  destruct (multiplier_is_additive a) as (Hdef & Hm).
  assert (Hr : adjustedMonthlyKwh a == round product).
  { rewrite Hdef. unfold product. rewrite Hm. reflexivity. }
  split; [exact Hr |]. split; [| split].
  - rewrite Hdef. unfold round. eexists. reflexivity.
  - rewrite Hr. apply round_nearest.
  - intros z Hz. rewrite Hr, Hz, round_integer. reflexivity.
Qed.

(** C9 as stated fails: 901 kWh with the electric vehicle project to
    1171 kWh, not to 901 × 1.3 = 1171.3 kWh. *)
Lemma projected_usage_901_with_EV :
  let a := mkAudit 901 true false false in
  adjustedMonthlyKwh a == 1171 /\
  monthlyKwh a * spec_multiplier a == 1171.3 /\
  ~ adjustedMonthlyKwh a == monthlyKwh a * spec_multiplier a.
Proof.
  cbv zeta. split; [| split]; vm_compute; [reflexivity .. | discriminate].
Qed.

(** *** Bounds on the allocation *)

Lemma adjustedMonthlyKwh_nonneg (a : Audit Q) :
  0 <= monthlyKwh a -> 0 <= adjustedMonthlyKwh a.
Proof.
  intros Hm. destruct (multiplier_is_additive a) as (Hdef & _).
  rewrite Hdef. apply round_nonneg.
  destruct (futureEV a), (futurePool a), (futurePond a); cbv zeta; lra.
Qed.

Lemma flat_rate_quotient_nonneg (x : Q) :
  0 <= x -> 0 <= x / TNB_RATE_PER_KWH.
Proof.
  intros Hx. unfold TNB_RATE_PER_KWH. qnum.
  setoid_replace (x / 0.5) with (2 * x) by field. lra.
Qed.

(** The daily loads, the generation and the capacity of a configuration
    in range are not negative. *)
Lemma computeFormula_inputs_nonneg (s : State Q) :
  let f := computeFormula s in
  0 <= monthlyKwh (audit s) ->
  0 <= dayUsagePercent s <= 100 ->
  0 <= panelCount s ->
  0 <= panelWattage s ->
  0 <= batteryUnits s ->
  0 <= Formula.B1 f /\ 0 <= Formula.C1 f /\ 0 <= Formula.G f /\
  0 <= Formula.H f /\ Formula.J f == Formula.H f * 10 /\
  Formula.J f <= batteryCapacity s.
Proof.
  intros f Hm (Hp0 & Hp1) Hd Hw Hu.
  destruct (computeFormula_inputs s)
    as (HA & HB & HC & HB1 & HC1 & HD & HE & HF & HG & HH & HI & HJ & _).
  fold f in HA, HB, HC, HB1, HC1, HD, HE, HF, HG, HH, HI, HJ.
  assert (Ha : 0 <= Formula.A f)
    by (rewrite HA; apply adjustedMonthlyKwh_nonneg; exact Hm).
  pose proof (Qmult_le_0_compat _ _ Hp0 Ha) as Hday.
  assert (Hnight : 0 <= (100 - dayUsagePercent s) * Formula.A f)
    by (apply Qmult_le_0_compat; lra).
  pose proof (Qmult_le_0_compat _ _ Hd Hw) as Hpanels.
  assert (Hh : 0 <= Formula.H f)
    by (rewrite HH; destruct (hasBattery s); qnum; lra).
  assert (Hcap : Formula.H f <= batteryUnits s)
    by (rewrite HH; destruct (hasBattery s); qnum; lra).
  split; [| split; [| split; [| split; [| split]]]].
  - rewrite HB1, HB. qnum.
    setoid_replace (dayUsagePercent s / 100 * Formula.A f / 30)
      with (dayUsagePercent s * Formula.A f * (1 # 3000)) by field.
    lra.
  - rewrite HC1, HC, HB. qnum.
    setoid_replace
      ((Formula.A f - dayUsagePercent s / 100 * Formula.A f) / 30)
      with ((100 - dayUsagePercent s) * Formula.A f * (1 # 3000)) by field.
    lra.
  - rewrite HG, HD, HE, HF. unfold SOLAR_YIELD_PER_KW. qnum.
    setoid_replace (panelCount s * (panelWattage s / 1000) * 3.5)
      with (panelCount s * panelWattage s * (7 # 2000)) by field.
    lra.
  - exact Hh.
  - rewrite HJ, HI. reflexivity.
  - rewrite HJ, HI. unfold batteryCapacity, BATTERY_UNIT_KWH. qnum. lra.
Qed.

(** C10: for a configuration in range (usage, panel count, panel wattage
    and battery units not negative, day fraction between 0 and 100; the
    flat rate is the positive constant 0.5) the billed and the exported
    energy are not negative, the stored energy lies between 0 and the
    battery capacity, and energy is exported only when the stored energy
    is the whole capacity. *)
Theorem allocation_outputs_in_range (s : State Q) :
  let f := computeFormula s in
  0 <= monthlyKwh (audit s) ->
  0 <= dayUsagePercent s <= 100 ->
  0 <= panelCount s ->
  0 <= panelWattage s ->
  0 <= batteryUnits s ->
  0 < Formula.K f /\
  0 <= Formula.dailyTnbKwh f /\
  0 <= Formula.dailyExportKwh f /\
  0 <= Formula.dailyStoredKwh f <= Formula.J f /\
  Formula.J f <= batteryCapacity s /\
  (0 < Formula.dailyExportKwh f -> Formula.dailyStoredKwh f == Formula.J f) /\
  (hasBattery s = true -> 0 < Formula.dailyExportKwh f ->
   Formula.dailyStoredKwh f == batteryCapacity s).
Proof.
  intros f Hm Hp Hd Hw Hu.
  destruct (computeFormula_inputs_nonneg s Hm Hp Hd Hw Hu)
    as (HB1 & HC1 & HG & HH & HJ & HJcap).
  fold f in HB1, HC1, HG, HH, HJ, HJcap.
  destruct (computeFormula_inputs s) as (_&_&_&_&_&_&_&_&_&HHdef&HI&HJdef&HK).
  fold f in HHdef, HI, HJdef, HK.
  assert (Hbat : hasBattery s = true -> Formula.J f = batteryCapacity s).
  { intros Hb. rewrite HJdef, HHdef, HI, Hb. reflexivity. }
  assert (Hkpos : 0 < Formula.K f) by (rewrite HK; reflexivity).
  cut (0 <= Formula.dailyTnbKwh f /\
       0 <= Formula.dailyExportKwh f /\
       0 <= Formula.dailyStoredKwh f <= Formula.J f /\
       (0 < Formula.dailyExportKwh f ->
        Formula.dailyStoredKwh f == Formula.J f)).
  { intros (H1 & H2 & H3 & H4). repeat split; try tauto.
    intros Hb Hx. rewrite <- (Hbat Hb). exact (H4 Hx). }
  destruct (gtb (Formula.B1 f) (Formula.G f)) eqn:Ecase.
  - (* the panels do not cover the daytime load *)
    destruct (computeFormula_shortfall s Ecase) as (Hk & He & Hs).
    fold f in Hk, He, Hs. to_order.
    rewrite Hk, He, Hs. qnum. repeat split; try lra.
  - destruct (strict_eq (Formula.H f) (lit 0)) eqn:Ebat.
    + (* no battery *)
      destruct (computeFormula_export s Ecase Ebat) as (He & Hk & Hs).
      fold f in He, Hk, Hs. to_order. apply strict_eq_true in Ebat.
      qnum. rewrite Hk, He, Hs, HK.
      split; [apply flat_rate_quotient_nonneg, Q.le_max_l |].
      repeat split; try lra.
    + (* battery *)
      destruct (computeFormula_battery s Ecase Ebat) as (Hs & He & Hk).
      fold f in Hs, He, Hk. to_order. qnum.
      pose proof (positive_part_guard
                    (Formula.G f - Formula.B1 f - Formula.J f)) as Hg.
      qnum. rewrite <- He in Hg.
      destruct (Q.max_spec 0 (Formula.G f - Formula.B1 f - Formula.J f))
        as [(Hlt & Emax) | (Hle & Emax)];
        destruct (Q.min_spec (Formula.G f - Formula.B1 f) (Formula.J f))
        as [(Hlt' & Emin) | (Hle' & Emin)];
        rewrite <- Hs in Emin; rewrite Emax in Hg;
        (split;
           [rewrite Hk, HK; apply flat_rate_quotient_nonneg, Q.le_max_l |]);
        repeat split; intros; lra.
Qed.

Lemma allocation_outputs_in_range_witness :
  let s := scenario_surplus (num := Q) in
  let f := computeFormula s in
  (0 <= monthlyKwh (audit s) /\ 0 <= dayUsagePercent s <= 100 /\
   0 <= panelCount s /\ 0 <= panelWattage s /\ 0 <= batteryUnits s) /\
  0 < Formula.K f /\
  0 <= Formula.dailyTnbKwh f /\
  0 <= Formula.dailyExportKwh f /\
  0 <= Formula.dailyStoredKwh f <= Formula.J f /\
  Formula.J f <= batteryCapacity s /\
  (0 < Formula.dailyExportKwh f -> Formula.dailyStoredKwh f == Formula.J f) /\
  (hasBattery s = true -> 0 < Formula.dailyExportKwh f ->
   Formula.dailyStoredKwh f == batteryCapacity s).
Proof.
  split.
  - repeat split; vm_compute; discriminate.
  - apply (allocation_outputs_in_range scenario_surplus);
      repeat split; vm_compute; discriminate.
Defined.

(** *** The simulation *)

(** A run whose day counter is [n] half days short of the thirty days
    fires [n] more times, reports on its last snapshot and stops, however
    much longer the timer is watched. *)
Lemma ticks_finish (s : State Q) (n : nat) :
  forall day stats fuel,
    day + inject_Z (Z.of_nat (S n)) * 0.5 == 30 ->
    (S n <= fuel)%nat ->
    exists snaps final,
      ticks fuel s day stats
      = (snaps ++ [final], Some (calculateFinalReport s final)) /\
      length snaps = n.
Proof.
  induction n as [|n IH]; intros day stats fuel Hday Hfuel;
    (destruct fuel as [|fuel]; [lia |]); cbn [ticks].
  - assert (E : geb (add day (lit 0.5)) totalDays = true).
    { apply geb_true. unfold totalDays. qnum.
      change (inject_Z (Z.of_nat 1)) with 1 in Hday. lra. }
    rewrite E. exists [], (accumulate s stats). split; reflexivity.
  - assert (E : geb (add day (lit 0.5)) totalDays = false).
    { apply not_true_iff_false. rewrite geb_true. unfold totalDays. qnum.
      rewrite Nat2Z.inj_succ, <- Z.add_1_r, inject_Z_plus in Hday.
      change (inject_Z 1) with 1 in Hday.
      assert (0 < inject_Z (Z.of_nat (S n)))
        by (change 0 with (inject_Z 0); rewrite <- Zlt_Qlt; lia).
      lra. }
    rewrite E.
    destruct (IH (add day (lit 0.5)) (accumulate s stats) fuel)
      as (snaps & final & Hrun & Hlen).
    + qnum. rewrite (Nat2Z.inj_succ (S n)), <- Z.add_1_r, inject_Z_plus in Hday.
      change (inject_Z 1) with 1 in Hday. lra.
    + lia.
    + rewrite Hrun. exists (accumulate s stats :: snaps), final.
      split; [reflexivity | cbn; lia].
Qed.

(** The simulation stops after sixty ticks, with a report. *)
Lemma runSimulation_finishes (s : State Q) (fuel : nat) :
  (60 <= fuel)%nat ->
  exists snaps final,
    runSimulation fuel s
    = (snaps ++ [final], Some (calculateFinalReport s final)) /\
    length snaps = 59%nat.
Proof.
  intros Hfuel. unfold runSimulation.
  apply ticks_finish; [vm_compute; reflexivity | exact Hfuel].
Qed.

Lemma accumulate_tank_level (s : State Q) (stats : Stats.t Q) :
  tank_level_guarded s (accumulate s stats).
Proof.
  unfold tank_level_guarded, accumulate. cbn [Stats.tankLevel]. split.
  - intros Hb Hcap. apply gtb_true in Hcap.
    change (gtb (batteryCapacity s) (lit 0) = true) in Hcap.
    rewrite Hb, Hcap. reflexivity.
  - intros [Hb | Hcap].
    + rewrite Hb. reflexivity.
    + assert (E : gtb (batteryCapacity s) (lit 0) = false)
        by (apply gtb_false; qnum; rewrite Hcap; apply Qle_refl).
      rewrite E, andb_false_r. reflexivity.
Qed.

(** *** The reference scenario *)

(** C4, as the code has it: for 900 kWh a month, 60 % of it by day,
    twelve panels of 615 W and no battery, a day generates 25.83 kWh,
    exports 7.83 kWh and costs 3.2595, so that the monthly grid cost is
    97.785; the simulation ends after sixty ticks with a report whose old
    bill is 450 and whose monthly savings are 352.215. *)
Theorem scenario_end_to_end :
  let f := computeFormula (num := Q) scenario in
  Formula.B1 f == 18 /\
  Formula.C1 f == 12 /\
  Formula.G f == 25.83 /\
  Formula.dailyExportKwh f == 7.83 /\
  Formula.dailyStoredKwh f == 0 /\
  Formula.dailyTnbCost f == 3.2595 /\
  Formula.dailyTnbKwh f == 6.519 /\
  Formula.monthlyTnbCost f == 97.785 /\
  exists snaps final report,
    runSimulation 60 scenario = (snaps ++ [final], Some report) /\
    length snaps = 59%nat /\
    Report.oldBill report == 450 /\
    Report.newBill report == 97.785 /\
    Report.monthlySavings report == 352.215.
Proof.
  cbv zeta. do 8 (split; [vm_compute; reflexivity |]).
  destruct (runSimulation_finishes scenario 60 (le_n _))
    as (snaps & final & Hrun & Hlen).
  exists snaps, final, (calculateFinalReport scenario final).
  split; [exact Hrun |]. split; [exact Hlen |].
  unfold calculateFinalReport.
  cbn [Report.oldBill Report.newBill Report.monthlySavings].
  repeat split; vm_compute; reflexivity.
Qed.

(** C4 as stated fails: the monthly grid cost of the scenario is 97.785,
    which is not 97.86, nor 97.86 to the nearest cent; and the savings
    are 352.215 rather than 352.14. *)
Lemma scenario_monthly_cost_is_not_97_86 :
  let f := computeFormula (num := Q) scenario in
  let report := calculateFinalReport (num := Q) scenario initialStats in
  Formula.monthlyTnbCost f == 97.785 /\
  ~ Formula.monthlyTnbCost f == 97.86 /\
  Formula.monthlyTnbCost f < 97.86 - 0.07 /\
  Report.monthlySavings report == 352.215 /\
  352.14 + 0.07 < Report.monthlySavings report.
Proof.
  cbv zeta. repeat split; vm_compute; (reflexivity || discriminate).
Qed.

End ExactFacts.

(** ** The same inputs, evaluated in doubles *)

Section Binary64Facts.
Import Binary64.

(** The three branches of [computeFormula] read the same in doubles:
    the comparisons are those of the machine, the results are equal bit
    for bit. *)
Lemma binary64_shortfall_and_night_load_are_billed (s : State float) :
  let f := computeFormula s in
  PrimFloat.ltb (Formula.G f) (Formula.B1 f) = true ->
  Formula.dailyTnbKwh f
  = PrimFloat.add (PrimFloat.sub (Formula.B1 f) (Formula.G f)) (Formula.C1 f)
  /\ Formula.dailyExportKwh f = PrimFloat.zero
  /\ Formula.dailyStoredKwh f = PrimFloat.zero.
Proof. intros f Hlt. exact (computeFormula_shortfall s Hlt). Qed.

Lemma binary64_excess_is_exported_without_battery (s : State float) :
  let f := computeFormula s in
  let excess := PrimFloat.sub (Formula.G f) (Formula.B1 f) in
  PrimFloat.ltb (Formula.G f) (Formula.B1 f) = false ->
  hasBattery s = false ->
  Formula.dailyExportKwh f = excess /\
  Formula.dailyTnbKwh f
  = PrimFloat.div
      (max PrimFloat.zero
         (PrimFloat.sub (PrimFloat.mul (Formula.C1 f) (lit 0.5))
            (PrimFloat.mul (PrimFloat.mul excess (lit 0.5)) (lit 0.7))))
      (lit 0.5).
Proof.
  intros f excess Hge Hb.
  destruct (computeFormula_inputs s) as (_&_&_&_&_&_&_&_&_&HH&_&_&HK).
  fold f in HH, HK. rewrite Hb in HH.
  assert (H0 : strict_eq (Formula.H f) (lit 0) = true)
    by (rewrite HH; reflexivity).
  change (gtb (Formula.B1 f) (Formula.G f) = false) in Hge.
  destruct (computeFormula_export s Hge H0) as (He & Hk & _).
  fold f in He, Hk. rewrite HK in Hk. split; assumption.
Qed.

(** The tariff at the block boundaries, bit for bit. *)
Lemma binary64_tariff_at_tier_boundaries :
  calculateKwhToBill (num := float) (lit 0) = lit 0 /\
  calculateKwhToBill (num := float) (lit 200) = mul (lit 200) (lit 0.218) /\
  mul (lit 200) (lit 0.218) = lit (num := float) 43.6 /\
  calculateKwhToBill (num := float) (lit 300)
    = add (lit 43.6) (mul (lit 100) (lit 0.334)) /\
  calculateKwhToBill (num := float) (lit 300) = lit 77 /\
  calculateKwhToBill (num := float) (lit 600) = lit 231.8 /\
  calculateKwhToBill (num := float) (lit 900) = lit 395.6.
Proof. repeat split; vm_compute; reflexivity. Qed.

(** The reference scenario: the generation, the old bill and the savings
    are the doubles [25.83], [450] and [352.215]; the export and the
    monthly cost are within [1e-9] of [7.83] and [97.785], and the cost
    is not within [1e-9] of [97.86]. *)
Lemma binary64_scenario_end_to_end :
  let f := computeFormula (num := float) scenario in
  Formula.G f = lit 25.83 /\
  close (Formula.dailyExportKwh f) (lit 7.83) = true /\
  close (Formula.monthlyTnbCost f) (lit 97.785) = true /\
  close (Formula.monthlyTnbCost f) (lit 97.86) = false /\
  snd (runSimulation 59 (num := float) scenario) = None /\
  length (fst (runSimulation 60 (num := float) scenario)) = 60%nat /\
  exists report,
    snd (runSimulation 60 (num := float) scenario) = Some report /\
    Report.oldBill report = lit 450 /\
    close (Report.newBill report) (lit 97.785) = true /\
    Report.monthlySavings report = lit 352.215.
Proof.
  cbv zeta. do 6 (split; [vm_compute; reflexivity |]).
  eexists. split; [vm_compute; reflexivity |].
  repeat split; vm_compute; reflexivity.
Qed.

(** 901 kWh with the electric vehicle project to the double [1171]. *)
Lemma binary64_projected_usage_901_with_EV :
  adjustedMonthlyKwh (num := float) (mkAudit (lit 901) true false false)
  = lit 1171.
Proof. vm_compute. reflexivity. Qed.

(** With the battery switched on and no unit in it the indicator is [0],
    where the unguarded quotient would be [NaN]. *)
Lemma binary64_empty_battery_tank_level :
  let s := scenario_empty_battery (num := float) in
  batteryCapacity s = lit 0 /\
  Stats.tankLevel (accumulate s initialStats) = lit 0 /\
  PrimFloat.is_nan
    (mul (div (Formula.dailyStoredKwh (computeFormula s)) (batteryCapacity s))
         (lit 100)) = true.
Proof. cbv zeta. repeat split; vm_compute; reflexivity. Qed.

(** *** The guard of the battery fill indicator *)

(** A double that is zero, negative or [NaN] is not above zero. *)
Lemma binary64_not_positive (x : float) :
  PrimFloat.leb x PrimFloat.zero = true \/ PrimFloat.is_nan x = true ->
  PrimFloat.ltb PrimFloat.zero x = false.
Proof.
  unfold PrimFloat.is_nan.
  rewrite FloatAxioms.leb_spec, FloatAxioms.eqb_spec, FloatAxioms.ltb_spec.
  change (FloatOps.Prim2SF PrimFloat.zero) with (SpecFloat.S754_zero false).
  destruct (FloatOps.Prim2SF x) as [sg | sg | | sg m e].
  - intros _. reflexivity.
  - destruct sg; [intros _; reflexivity |].
    intros [H | H]; discriminate H.
  - intros _. reflexivity.
  - destruct sg; [intros _; reflexivity |].
    intros [H | H]; [discriminate H |].
    unfold SpecFloat.SFeqb, SpecFloat.SFcompare in H.
    rewrite Z.compare_refl, Pos.compare_refl in H. discriminate H.
Qed.

Lemma binary64_accumulate_tank_level (s : State float)
    (stats : Stats.t float) :
  Binary64.tank_level_guarded s (accumulate s stats).
Proof.
  unfold Binary64.tank_level_guarded, accumulate. cbn [Stats.tankLevel].
  assert (Hz : lit (num := float) 0 = PrimFloat.zero)
    by (vm_compute; reflexivity).
  rewrite Hz. change (gtb (batteryCapacity s) PrimFloat.zero)
    with (PrimFloat.ltb PrimFloat.zero (batteryCapacity s)).
  split.
  - intros Hb Hcap. rewrite Hb, Hcap. reflexivity.
  - intros [Hb | Hcap].
    + rewrite Hb. reflexivity.
    + rewrite (binary64_not_positive _ Hcap), andb_false_r. reflexivity.
Qed.

(** C8: on every tick of the simulation, in doubles, the battery fill
    indicator is the stored energy of the day over the battery capacity,
    times 100, when there is a battery of a positive capacity; it is
    [+0], where the quotient by a zero capacity would be [NaN], when
    there is no battery or the capacity is zero (or negative, or
    [NaN]): the division is behind a guard. *)
Theorem battery_fill_indicator_is_guarded (s : State float) :
  (forall stats, Binary64.tank_level_guarded s (accumulate s stats)) /\
  (forall fuel,
     Forall (Binary64.tank_level_guarded s) (fst (runSimulation fuel s))).
Proof.
  split; [apply binary64_accumulate_tank_level |].
  intros fuel. unfold runSimulation.
  eapply Forall_impl; [| apply ticks_snapshots].
  intros snapshot (previous & ->). apply binary64_accumulate_tank_level.
Qed.

(** One battery unit is filled to 78.3 %; without a battery the
    indicator is [0]; and with the battery switched on and no unit in
    it the indicator is [0] where the quotient, [0 / 0], is [NaN]. *)
Lemma battery_fill_indicator_is_guarded_witness :
  close (Stats.tankLevel
           (accumulate (num := float) (scenario_battery (lit 1)) initialStats))
    (lit 78.3) = true /\
  Stats.tankLevel (accumulate (num := float) scenario initialStats)
  = PrimFloat.zero /\
  Stats.tankLevel
    (accumulate (num := float) scenario_empty_battery initialStats)
  = PrimFloat.zero /\
  PrimFloat.is_nan
    (div (Formula.dailyStoredKwh
            (computeFormula (num := float) scenario_empty_battery))
       (batteryCapacity (num := float) scenario_empty_battery)) = true.
Proof.
  split; [| split; [| split]].
  - destruct (proj1 (battery_fill_indicator_is_guarded
                       (scenario_battery (lit 1))) initialStats)
      as (Hfill & _).
    rewrite Hfill; vm_compute; reflexivity.
  - destruct (proj1 (battery_fill_indicator_is_guarded scenario)
                initialStats) as (_ & Hzero).
    apply Hzero. left. reflexivity.
  - destruct (proj1 (battery_fill_indicator_is_guarded scenario_empty_battery)
                initialStats) as (_ & Hzero).
    apply Hzero. right. left. vm_compute. reflexivity.
  - vm_compute. reflexivity.
Defined.

End Binary64Facts.

(** ** The projected usage, in doubles *)

Section Binary64UsageFacts.
Import Binary64.
Local Open Scope Q_scope.

(** The multiplier that [adjustedMonthlyKwh] builds, for the three
    flags. *)
Definition multiplier {num : Type} {JS : JsNumber num}
    (ev pool pond : bool) : num :=
  let multiplier := lit 1 in
  let multiplier := if ev then add multiplier (lit 0.3) else multiplier in
  let multiplier := if pool then add multiplier (lit 0.2) else multiplier in
  let multiplier := if pond then add multiplier (lit 0.15) else multiplier in
  multiplier.

(** Whether the doubles project the whole-number usage [k] to an integer
    nearest to the exact product: to the one that a tie going up gives,
    or, when the product is halfway between two integers, the pond is
    set and the vehicle is not, to the integer below. *)
Definition projected_usage_check (ev pool pond : bool) (k : Z) : bool :=
  let product := inject_Z k * multiplier (num := Q) ev pool pond in
  let up := Qfloor (product + (1 # 2)) in
  let result :=
    adjustedMonthlyKwh (num := float) (mkAudit (of_Z k) ev pool pond) in
  PrimFloat.Leibniz.eqb result (of_Z up)
  || (Qeq_bool (inject_Z up) (product + (1 # 2))
      && negb ev && pond
      && PrimFloat.Leibniz.eqb result (of_Z (up - 1))).

(** [f] on the [n] integers from [lo] on. *)
Fixpoint all_from (lo : Z) (n : nat) (f : Z -> bool) : bool :=
  match n with
  | O => true
  | S n => f lo && all_from (lo + 1) n f
  end.

Lemma all_from_spec (f : Z -> bool) (n : nat) (lo : Z) :
  all_from lo n f = true ->
  forall k : Z, (lo <= k < lo + Z.of_nat n)%Z -> f k = true.
Proof.
  revert lo. induction n as [|n IH]; intros lo Hall k Hk; [lia |].
  cbn [all_from] in Hall. apply andb_true_iff in Hall.
  destruct Hall as (Hlo & Hrest).
  destruct (Z.eq_dec k lo) as [-> | Hne]; [exact Hlo |].
  apply (IH (lo + 1)%Z Hrest). lia.
Qed.

Lemma projected_usage_checked (ev pool pond : bool) :
  all_from 0 3001 (projected_usage_check ev pool pond) = true.
Proof. destruct ev, pool, pond; vm_compute; reflexivity. Qed.

Lemma multiplier_is_spec (ev pool pond : bool) (u : Q) :
  multiplier (num := Q) ev pool pond
  == Exact.spec_multiplier (mkAudit u ev pool pond).
Proof.
  unfold multiplier, Exact.spec_multiplier, Exact.flag.
  destruct ev, pool, pond; cbn; lra.
Qed.

(** C9, as the code has it: the multiplier is 1 plus the surcharges of
    the flags that are set (0.3, 0.2 and 0.15, added once, in doubles),
    and the projected usage is [Math.round] of the double product of the
    usage and that multiplier, for every usage.  For a whole-number
    usage up to 3000 the result is an integer at most a half from the
    exact product [usage × (1 + 0.3·EV + 0.2·pool + 0.15·pond)]: the one
    that a tie going up gives, or, at a tie with the pond set and the
    vehicle not, the integer below. *)
Theorem projected_usage_is_rounded_product (ev pool pond : bool) (k : Z) :
  (0 <= k <= 3000)%Z ->
  let product :=
    inject_Z k * Exact.spec_multiplier (mkAudit (inject_Z k) ev pool pond) in
  (forall u : float,
     adjustedMonthlyKwh (mkAudit u ev pool pond)
     = Math_round (mul u (multiplier ev pool pond))) /\
  close (multiplier ev pool pond)
    (lit (Exact.spec_multiplier (mkAudit 0 ev pool pond))) = true /\
  exists n : Z,
    adjustedMonthlyKwh (num := float) (mkAudit (of_Z k) ev pool pond)
    = of_Z n /\
    product - (1 # 2) <= inject_Z n <= product + (1 # 2) /\
    (inject_Z n == Exact.round product \/
     (inject_Z n == product - (1 # 2) /\ ev = false /\ pond = true)).
Proof.
  intros Hk product.
  split; [intros u; reflexivity |].
  split; [destruct ev, pool, pond; vm_compute; reflexivity |].
  pose proof (all_from_spec _ _ _ (projected_usage_checked ev pool pond) k
                ltac:(lia)) as Hcheck.
  unfold projected_usage_check in Hcheck. cbv zeta in Hcheck.
  assert (Ep : inject_Z k * multiplier (num := Q) ev pool pond == product)
    by (unfold product; rewrite (multiplier_is_spec _ _ _ (inject_Z k));
        reflexivity).
  set (p := inject_Z k * multiplier (num := Q) ev pool pond) in *.
  pose proof (Qfloor_le (p + (1 # 2))) as Hl.
  pose proof (Qlt_floor (p + (1 # 2))) as Hu.
  rewrite inject_Z_plus in Hu. change (inject_Z 1) with 1 in Hu.
  assert (Er : inject_Z (Qfloor (p + (1 # 2))) == Exact.round product).
  { unfold Exact.round. rewrite <- Ep. reflexivity. }
  set (up := Qfloor (p + (1 # 2))) in *.
  apply orb_true_iff in Hcheck. destruct Hcheck as [Hup | Hdown].
  - apply FloatAxioms.Leibniz.eqb_spec in Hup.
    exists up. split; [exact Hup |]. split; [split; lra |].
    left. exact Er.
  - apply andb_true_iff in Hdown. destruct Hdown as (Hdown & Heq).
    apply andb_true_iff in Hdown. destruct Hdown as (Hdown & Hpond).
    apply andb_true_iff in Hdown. destruct Hdown as (Htie & Hev).
    apply FloatAxioms.Leibniz.eqb_spec in Heq.
    apply Qeq_bool_iff in Htie. apply negb_true_iff in Hev.
    assert (En : inject_Z (up - 1) == inject_Z up - 1).
    { unfold Z.sub. rewrite inject_Z_plus. reflexivity. }
    exists (up - 1)%Z. split; [exact Heq |].
    split; [rewrite En; split; lra |].
    right. split; [rewrite En; lra |]. split; assumption.
Qed.

(** 350 kWh with the pond: the exact product is 402.5, the double
    product is just below it and the projected usage is 402; 900 kWh
    with the vehicle and the pool project to 900 × 1.5 = 1350 kWh, not
    to the compounded 900 × 1.3 × 1.2 = 1404. *)
Lemma projected_usage_is_rounded_product_witness :
  (0 <= 350 <= 3000)%Z /\
  inject_Z 350
  * Exact.spec_multiplier (mkAudit (inject_Z 350) false false true)
  == 402.5 /\
  adjustedMonthlyKwh (num := float) (mkAudit (of_Z 350) false false true)
  = of_Z 402 /\
  adjustedMonthlyKwh (num := float) (mkAudit (of_Z 250) false true true)
  = of_Z 337 /\
  adjustedMonthlyKwh (num := float) (mkAudit (of_Z 900) true true false)
  = of_Z 1350 /\
  (exists n : Z,
     adjustedMonthlyKwh (num := float) (mkAudit (of_Z 350) false false true)
     = of_Z n /\
     402.5 - (1 # 2) <= inject_Z n <= 402.5 + (1 # 2)).
Proof.
  split; [lia |]. split; [vm_compute; reflexivity |].
  do 3 (split; [vm_compute; reflexivity |]).
  destruct (projected_usage_is_rounded_product false false true 350
              ltac:(lia)) as (_ & _ & n & Hn & Hbound & _).
  exists n. split; [exact Hn |].
  assert (E : inject_Z 350
              * Exact.spec_multiplier
                  (mkAudit (inject_Z 350) false false true) == 402.5)
    by (vm_compute; reflexivity).
  rewrite E in Hbound. exact Hbound.
Defined.

End Binary64UsageFacts.

(** * The rest of the component *)

From Stdlib Require Import Sorted.

(** ** Derived values, input handlers and report figures of [solar.jsx] *)

(** [Math.ceil] and [Math.floor], which the derived values and the
    screens use besides the operations of [JsNumber]. *)
Class JsRounding (num : Type) : Type := {
  Math_ceil : num -> num;
  Math_floor : num -> num
}.

Section Component.
Context {num : Type} {JS : JsNumber num} {JR : JsRounding num}.
Local Open Scope js_scope.

Definition recommendedSystemSize (s : State num) : num :=
  let dailyKwh := currentKwhUsage s / lit 30 in
  Math_min (lit 15)
    (Math_max (lit 3) (Math_ceil ((dailyKwh * lit 0.9) / SOLAR_YIELD_PER_KW))).

Definition selectedSystemSize (s : State num) : num :=
  (panelWattage s * panelCount s) / lit 1000.

Definition effectiveSystemSize (s : State num) : num :=
  if panelCount s >? lit 0 then selectedSystemSize s
  else recommendedSystemSize s.

(** The [onBlur] handler of the monthly usage input: [parsedValue] is
    [Number(monthlyKwhInput)], [None] standing for [NaN]; the result is
    the new [audit.monthlyKwh]. *)
Definition normalizeMonthlyKwh (parsedValue : option num) (a : Audit num)
  : Audit num :=
  let normalizedValue :=
    match parsedValue with
    | None => monthlyKwh a
    | Some v => Math_min (lit 3000) (Math_max (lit 200) v)
    end in
  mkAudit normalizedValue (futureEV a) (futurePool a) (futurePond a).

(** The [onBlur] handler of the panel quantity input. *)
Definition normalizePanelCount (parsedValue : option num) (s : State num)
  : State num :=
  let normalizedValue :=
    match parsedValue with
    | None => panelCount s
    | Some v => Math_min (lit 40) (Math_max (lit 6) v)
    end in
  mkState (audit s) (dayUsagePercent s) (panelWattage s) normalizedValue
    (hasBattery s) (batteryUnits s).

(** The state after [setPanelCount], [setHasBattery] and
    [setBatteryUnits]. *)
Definition setPanelCount (n : num) (s : State num) : State num :=
  mkState (audit s) (dayUsagePercent s) (panelWattage s) n
    (hasBattery s) (batteryUnits s).


Definition setBatteryUnits (units : num) (s : State num) : State num :=
  mkState (audit s) (dayUsagePercent s) (panelWattage s) (panelCount s)
    (hasBattery s) units.

(** [progress], as the interval callback of [runSimulation] computes it
    from the day counter, and the day shown by [renderSimulation]. *)
Definition progress (day : num) : num := (day / totalDays) * lit 100.

Definition displayedDay (simProgress : num) : num :=
  Math_min (lit 30) (Math_floor ((simProgress / lit 100) * lit 30)).

(** The day counter after [k] firings of the callback. *)
Fixpoint dayAfter (k : nat) : num :=
  match k with
  | O => lit 0
  | S k' => dayAfter k' + lit 0.5
  end.

(** The figures that [renderReport] derives from the final report. *)
Definition savingsPercent (finalReport : Report.t num) : num :=
  if Report.oldBill finalReport >? lit 0
  then Math_max (lit 0)
         (Math_round
            ((Report.monthlySavings finalReport / Report.oldBill finalReport)
             * lit 100))
  else lit 0.

Definition savingsAmount (finalReport : Report.t num) : num :=
  Math_max (lit 0) (Math_round (Report.monthlySavings finalReport)).

Definition isTrapDetected (finalReport : Report.t num) : bool :=
  Report.lossAmount finalReport >? lit 50.

(** The condition under which [renderReport] shows the efficiency
    alert. *)
Definition trapAlertShown (s : State num) (finalReport : Report.t num)
  : bool :=
  isTrapDetected finalReport && negb (hasBattery s).

End Component.

#[global] Instance QRounding : JsRounding Q := {
  Math_ceil x := inject_Z (Qceiling x);
  Math_floor x := inject_Z (Qfloor x)
}.

(** [Math.floor] and [Math.ceil] on doubles.  As in [Binary64.round], a
    double of magnitude [2^52] or more is an integer, and below that
    adding and removing [2^52] gives the integer nearest to [x]; a zero
    is returned as it is, which keeps its sign. *)
Definition binary64_floor (x : Binary64.float) : Binary64.float :=
  if PrimFloat.is_nan x || PrimFloat.is_infinity x || PrimFloat.is_zero x
  then x
  else if PrimFloat.leb Binary64.two52 (PrimFloat.abs x) then x
  else
    let r :=
      if PrimFloat.ltb x PrimFloat.zero
      then PrimFloat.add (PrimFloat.sub x Binary64.two52) Binary64.two52
      else PrimFloat.sub (PrimFloat.add x Binary64.two52) Binary64.two52 in
    if PrimFloat.ltb x r then PrimFloat.sub r PrimFloat.one else r.

Definition binary64_ceil (x : Binary64.float) : Binary64.float :=
  PrimFloat.opp (binary64_floor (PrimFloat.opp x)).

#[global] Instance F64Rounding : JsRounding Binary64.float := {
  Math_ceil := binary64_ceil;
  Math_floor := binary64_floor
}.

(** ** The phone number of the welcome screen *)

(** A string is the list of its UTF-16 code units. *)
Definition is_digit (c : N) : bool := (48 <=? c)%N && (c <=? 57)%N.

(** [audit.phone.replace(/\D+/g, '')]: every run of code units that are
    not digits is removed. *)
Definition phoneDigits (phone : list N) : list N := filter is_digit phone.

(** [/^\d{9,12}$/.test(s)]: the whole string is nine to twelve digits. *)
Definition test_9_to_12_digits (s : list N) : bool :=
  forallb is_digit s
  && (9 <=? length s)%nat && (length s <=? 12)%nat.

Definition isPhoneValid (phone : list N) : bool :=
  test_9_to_12_digits (phoneDigits phone).

(** ** The variant of the component that starts from the bill *)

(** The file of this variant has the same [TARIFF_TIERS] and
    [calculateKwhToBill], an inverse [calculateBillToKwh] from which it
    takes [currentKwhUsage], and a final report that prices the imported
    energy with the tariff. *)
Module BillVariant.

Section Program.
Context {num : Type} {JS : JsNumber num}.
Local Open Scope js_scope.

(** The loop of [calculateBillToKwh] on the tiers still to visit and its
    two variables, which it returns.  [tier.limit * tier.rate] is
    [Infinity] on the unbounded tier, so that a bill that is a number
    stops there. *)
Fixpoint billLoop (tiers : list (Tier num)) (remainingBill totalKwh : num)
  : num * num :=
  match tiers with
  | [] => (totalKwh, remainingBill)
  | tier :: rest =>
      match limit tier with
      | None => (totalKwh + remainingBill / rate tier, lit 0)
      | Some w =>
          let tierCost := w * rate tier in
          if remainingBill <=? tierCost
          then (totalKwh + remainingBill / rate tier, lit 0)
          else billLoop rest (remainingBill - tierCost) (totalKwh + w)
      end
  end.

(** The rate of [TARIFF_TIERS[TARIFF_TIERS.length - 1]]. *)
Definition topRate : num :=
  rate (last TARIFF_TIERS (mkTier None (lit 0))).

Definition calculateBillToKwh (billAmount : num) : num :=
  let '(totalKwh, remainingBill) := billLoop TARIFF_TIERS billAmount (lit 0) in
  if remainingBill >? lit 0 then totalKwh + remainingBill / topRate
  else totalKwh.

(** [calculateFinalReport] of this variant, from [audit.currentBill] and
    the accumulator. *)
Definition calculateFinalReport (currentBill : num) (stats : Stats.t num)
  : Report.t num :=
  let oldBill := currentBill in
  let importCost := calculateKwhToBill (Stats.gridImport stats) in
  let exportCredit := Stats.gridExport stats * NEM_EXPORT_RATE in
  let newBill := Math_max (lit 0) (importCost - exportCredit) in
  let potentialValueIfUsed := Stats.gridExport stats * AVG_GRID_RATE in
  let actualValueSold := Stats.gridExport stats * NEM_EXPORT_RATE in
  let lossAmount := potentialValueIfUsed - actualValueSold in
  let monthlySavings := oldBill - newBill in
  Report.mk oldBill newBill monthlySavings
    (Stats.solarGenerated stats)
    (Stats.houseConsumed stats - Stats.gridImport stats)
    (Stats.gridExport stats)
    lossAmount.

End Program.

(** The appliances that can be scheduled: [APPLIANCES] has the three
    identifiers ['ac'], ['wm'] and ['dw'], and [selectedTool] is one of
    them or [null]. *)
Inductive ApplianceId : Set := ac | wm | dw.

Definition ApplianceId_eqb (a b : ApplianceId) : bool :=
  match a, b with
  | ac, ac | wm, wm | dw, dw => true
  | _, _ => false
  end.

Inductive ResidentProfile : Set := NineToFive | Home.

(** The [schedule] object: the keys that are set, in the order in which
    [Object.entries] lists them (ascending hours), each with its array
    of appliances. *)
Definition Schedule : Type := list (nat * list ApplianceId).

(** [schedule[hour] || []] *)
Fixpoint itemsAt (hour : nat) (schedule : Schedule) : list ApplianceId :=
  match schedule with
  | [] => []
  | (key, items) :: rest =>
      if Nat.eqb hour key then items else itemsAt hour rest
  end.

(** [{ ...prev, [hour]: newItems }] *)
Fixpoint setItems (hour : nat) (newItems : list ApplianceId)
    (prev : Schedule) : Schedule :=
  match prev with
  | [] => [(hour, newItems)]
  | (key, items) :: rest =>
      if Nat.ltb hour key then (hour, newItems) :: prev
      else if Nat.eqb hour key then (hour, newItems) :: rest
      else (key, items) :: setItems hour newItems rest
  end.

(** The schedule after [toggleScheduleItem(hour)]. *)
Definition toggleScheduleItem (residentProfile : ResidentProfile)
    (selectedTool : option ApplianceId) (hour : nat) (schedule : Schedule)
  : Schedule :=
  match selectedTool with
  | None => schedule
  | Some tool =>
      let isWorkHours := Nat.leb 9 hour && Nat.leb hour 17 in
      let isOfficeWorker :=
        match residentProfile with NineToFive => true | Home => false end in
      let isLocked := isOfficeWorker && isWorkHours in
      if isLocked then schedule
      else
        let currentItems := itemsAt hour schedule in
        let exists_ := existsb (ApplianceId_eqb tool) currentItems in
        let newItems :=
          if exists_
          then filter (fun id => negb (ApplianceId_eqb id tool)) currentItems
          else currentItems ++ [tool] in
        setItems hour newItems schedule
  end.

Section Simulation.
Context {num : Type} {JS : JsNumber num} {JR : JsRounding num}.
Local Open Scope js_scope.

Record Appliance : Type := mkAppliance {
  id : ApplianceId;
  load : num
}.

Definition APPLIANCES : list Appliance :=
  [ mkAppliance ac (lit 1.5);
    mkAppliance wm (lit 0.8);
    mkAppliance dw (lit 1.2) ].

(** The state that the interval callback of [runSimulation] reads. *)
Record State : Type := mkState {
  currentBill : num;
  futureEV : bool;
  futurePool : bool;
  futurePond : bool;
  schedule : Schedule;
  hasBattery : bool;
  batterySize : num
}.

Definition currentKwhUsage (s : State) : num :=
  calculateBillToKwh (currentBill s).

Definition recommendedSystemSize (s : State) : num :=
  let dailyKwh := currentKwhUsage s / lit 30 in
  Math_min (lit 15)
    (Math_max (lit 3) (Math_ceil ((dailyKwh * lit 0.9) / SOLAR_YIELD_PER_KW))).

(** [apps.forEach(appId => { const app = APPLIANCES.find(...); load +=
    app.load; })], from the value [load] has before; [None] when an
    identifier is not in [APPLIANCES], where the code throws. *)
Fixpoint addLoads (apps : list ApplianceId) (load_ : num) : option num :=
  match apps with
  | [] => Some load_
  | appId :: rest =>
      match find (fun a => ApplianceId_eqb (id a) appId) APPLIANCES with
      | Some app => addLoads rest (load_ + load app)
      | None => None
      end
  end.

(** The loop of [calculateLoadInWindow] over the hours listed. *)
Fixpoint windowLoop (hours : list nat) (sch : Schedule) (load_ : num)
  : option num :=
  match hours with
  | [] => Some load_
  | i :: rest =>
      match addLoads (itemsAt i sch) load_ with
      | Some load_ => windowLoop rest sch (load_ + lit 0.2)
      | None => None
      end
  end.

Definition calculateLoadInWindow (s : State) (start end_ : nat)
  : option num :=
  windowLoop (List.seq start (S end_ - start)) (schedule s) (lit 0).

(** [Object.entries(schedule).forEach(...)] *)
Fixpoint entriesLoop (entries : Schedule) (dailyActiveLoad : num)
  : option num :=
  match entries with
  | [] => Some dailyActiveLoad
  | (_, apps) :: rest =>
      match addLoads apps dailyActiveLoad with
      | Some dailyActiveLoad => entriesLoop rest dailyActiveLoad
      | None => None
      end
  end.

(** The energy flows of a day, as the interval callback computes
    them. *)
Record Flows : Type := mkFlows {
  dailySolar : num;
  totalDailyConsumption : num;
  solarUsedDirectly : num;
  toBattery : num;
  exported : num;
  fromBattery : num;
  imported : num
}.

Definition dailyFlows (s : State) : option Flows :=
  let dailySolar := recommendedSystemSize s * SOLAR_YIELD_PER_KW in
  let dailyBaseLoad := lit 5 in
  let dailyBaseLoad :=
    if futurePond s then dailyBaseLoad + lit 4 else dailyBaseLoad in
  let dailyBaseLoad :=
    if futurePool s then dailyBaseLoad + lit 6 else dailyBaseLoad in
  match entriesLoop (schedule s) (lit 0) with
  | None => None
  | Some dailyActiveLoad =>
      let dailyActiveLoad :=
        if futureEV s then dailyActiveLoad + lit 12 else dailyActiveLoad in
      let totalDailyConsumption := dailyBaseLoad + dailyActiveLoad in
      match calculateLoadInWindow s 11 15 with
      | None => None
      | Some sunWindowConsumption =>
          let solarUsedDirectly :=
            Math_min dailySolar
              (sunWindowConsumption + (dailyBaseLoad * lit 0.4)) in
          let excessSolar :=
            Math_max (lit 0) (dailySolar - solarUsedDirectly) in
          let toBattery :=
            if hasBattery s then Math_min excessSolar (batterySize s)
            else lit 0 in
          let excessSolar :=
            if hasBattery s then excessSolar - toBattery else excessSolar in
          let exported := excessSolar in
          let remainingLoad :=
            Math_max (lit 0) (totalDailyConsumption - solarUsedDirectly) in
          let fromBattery :=
            if hasBattery s then Math_min remainingLoad toBattery
            else lit 0 in
          let imported := Math_max (lit 0) (remainingLoad - fromBattery) in
          Some (mkFlows dailySolar totalDailyConsumption solarUsedDirectly
                  toBattery exported fromBattery imported)
      end
  end.

End Simulation.

End BillVariant.

(** ** The loan figures of the report screen of that variant *)

(** [Math.abs] *)
Class JsAbs (num : Type) : Type := {
  Math_abs : num -> num
}.

#[global] Instance QAbs : JsAbs Q := {
  Math_abs := Qabs
}.

#[global] Instance F64Abs : JsAbs Binary64.float := {
  Math_abs := PrimFloat.abs
}.

Module Finance.

(** The [finance] state. *)
Record t (num : Type) : Type := mk {
  subsidy : num;
  tenureYears : num;
  interestRate : num;
  includeBattery : bool
}.
Arguments mk {num}.
Arguments subsidy {num}.
Arguments tenureYears {num}.
Arguments interestRate {num}.
Arguments includeBattery {num}.

Section Program.
Context {num : Type} {JS : JsNumber num} {JR : JsRounding num}
        {JA : JsAbs num}.
Local Open Scope js_scope.

Definition SYSTEM_COST_PER_KW : num := lit 2800.
Definition BATTERY_COST_PER_KWH : num := lit 1200.

(** The initial value of the [finance] state. *)
Definition initialFinance : t num := mk (lit 10000) (lit 5) (lit 2.5) true.

Definition panelCost (s : BillVariant.State) : num :=
  BillVariant.recommendedSystemSize s * SYSTEM_COST_PER_KW.

Definition batteryCost (s : BillVariant.State) : num :=
  if BillVariant.hasBattery s
  then BillVariant.batterySize s * BATTERY_COST_PER_KWH
  else lit 0.

Definition estimatedTotalCost (s : BillVariant.State) : num :=
  panelCost s + batteryCost s.

Definition financedAmount (s : BillVariant.State) (finance : t num) : num :=
  if includeBattery finance then estimatedTotalCost s else panelCost s.

Definition loanPrincipal (s : BillVariant.State) (finance : t num) : num :=
  Math_max (lit 0) (financedAmount s finance - subsidy finance).

Definition totalInterest (s : BillVariant.State) (finance : t num) : num :=
  loanPrincipal s finance * (interestRate finance / lit 100)
  * tenureYears finance.

Definition totalLoanPayable (s : BillVariant.State) (finance : t num)
  : num :=
  loanPrincipal s finance + totalInterest s finance.

Definition monthlyInstallment (s : BillVariant.State) (finance : t num)
  : num :=
  totalLoanPayable s finance / (tenureYears finance * lit 12).

Definition newMonthlyCommitment (s : BillVariant.State) (finance : t num)
    (finalReport : Report.t num) : num :=
  Report.newBill finalReport + monthlyInstallment s finance.

Definition monthlyNetSavings (s : BillVariant.State) (finance : t num)
    (finalReport : Report.t num) : num :=
  Report.oldBill finalReport - newMonthlyCommitment s finance finalReport.

Definition isCashflowPositive (s : BillVariant.State) (finance : t num)
    (finalReport : Report.t num) : bool :=
  monthlyNetSavings s finance finalReport >? lit 0.

(** [monthsToBreakeven] after the conditional that sets it. *)
Definition monthsToBreakeven (s : BillVariant.State) (finance : t num)
    (finalReport : Report.t num) : num :=
  if negb (isCashflowPositive s finance finalReport)
  then Math_abs (monthlyNetSavings s finance finalReport
                 * (tenureYears finance * lit 12))
       / Report.monthlySavings finalReport
  else lit 0.

(** The number in [breakEvenText], [None] for the text "Immediate". *)
Definition breakEvenMonths (s : BillVariant.State) (finance : t num)
    (finalReport : Report.t num) : option num :=
  if negb (isCashflowPositive s finance finalReport)
  then Some (Math_ceil (monthsToBreakeven s finance finalReport))
  else None.

End Program.

End Finance.

(** ** Configurations and notions used in the statements *)

Section MoreConfigurations.
Context {num : Type} {JS : JsNumber num}.




(** Six panels of 700 W. *)
Definition scenario_700W : State num :=
  mkState (mkAudit (lit 900) false false false)
    (lit 60) (lit 700) (lit 6) false (lit 1).

End MoreConfigurations.

(** The configurations that the inputs of the component allow. *)
Definition in_range (s : State Q) : Prop :=
  (0 <= monthlyKwh (audit s) /\
   0 <= dayUsagePercent s <= 100 /\
   0 <= panelCount s /\
   0 <= panelWattage s /\
   0 <= batteryUnits s)%Q.


(** A table whose rates are positive and whose limits are not negative,
    up to a tier that is unbounded. *)
Inductive open_ended : list (Tier Q) -> Prop :=
| open_ended_last r rest :
    (0 < r)%Q -> open_ended (mkTier None r :: rest)
| open_ended_cons w r rest :
    (0 <= w)%Q -> (0 < r)%Q -> open_ended rest ->
    open_ended (mkTier (Some w) r :: rest).

(** The day shown after [k] ticks, in doubles, and the ticks at which
    the doubles of the progress fall just short of a whole day. *)
Definition binary64_shown_day (k : nat) : Binary64.float :=
  displayedDay (progress (dayAfter k)).

Definition late_ticks : list nat := [10; 14; 20; 28; 40; 56]%nat.

Definition binary64_expected_day (k : nat) : Binary64.float :=
  Binary64.of_Z
    (Z.of_nat (k / 2) - (if existsb (Nat.eqb k) late_ticks then 1 else 0)).

(** The keys of a schedule are ascending. *)
Definition ascending (sch : BillVariant.Schedule) : Prop :=
  StronglySorted lt (map fst sch).

(** The load of an appliance, of a list of appliances, of the whole
    schedule and of the hours listed, as sums. *)
Definition load_of (appId : BillVariant.ApplianceId) : Q :=
  match appId with
  | BillVariant.ac => 1.5%Q
  | BillVariant.wm => 0.8%Q
  | BillVariant.dw => 1.2%Q
  end.

Fixpoint loads (apps : list BillVariant.ApplianceId) : Q :=
  match apps with
  | [] => 0%Q
  | appId :: rest => (load_of appId + loads rest)%Q
  end.

Fixpoint entriesLoad (sch : BillVariant.Schedule) : Q :=
  match sch with
  | [] => 0%Q
  | (_, apps) :: rest => (loads apps + entriesLoad rest)%Q
  end.

Fixpoint hoursLoad (hours : list nat) (sch : BillVariant.Schedule) : Q :=
  match hours with
  | [] => 0%Q
  | i :: rest => (loads (BillVariant.itemsAt i sch) + hoursLoad rest sch)%Q
  end.

(** A household of the variant: a bill of 450, the air conditioner at
    noon and the washer at eight in the evening, a battery of 5 kWh. *)
Definition scenario_bill : BillVariant.State (num := Q) :=
  BillVariant.mkState 450%Q false false false
    [(12%nat, [BillVariant.ac]); (20%nat, [BillVariant.wm])] true 5%Q.

(** ** Tactics for the exact model *)

Ltac qnum :=
  cbn [add sub mul div lit Math_min Math_max Math_ceil Math_floor
       Exact.QNumber QRounding] in *.

Ltac to_order :=
  repeat match goal with
    | H : gtb _ _ = true |- _ => apply gtb_true in H
    | H : gtb _ _ = false |- _ => apply gtb_false in H
    | H : leb _ _ = true |- _ => apply leb_true in H
    | H : leb _ _ = false |- _ => apply leb_false in H
    end.

Ltac case_if E :=
  match goal with
  | |- context [if ?b then _ else _] => destruct b eqn:E
  end; to_order; qnum.

(** Every [Qmax] and [Qmin] becomes a variable with its specification,
    for [lra]. *)
Ltac atomize_minmax :=
  repeat match goal with
    | |- context [Qmax ?a ?b] =>
        let m := fresh "m" in
        pose proof (Q.max_spec a b); set (m := Qmax a b) in *; clearbody m
    | H : context [Qmax ?a ?b] |- _ =>
        let m := fresh "m" in
        pose proof (Q.max_spec a b); set (m := Qmax a b) in *; clearbody m
    | |- context [Qmin ?a ?b] =>
        let m := fresh "m" in
        pose proof (Q.min_spec a b); set (m := Qmin a b) in *; clearbody m
    | H : context [Qmin ?a ?b] |- _ =>
        let m := fresh "m" in
        pose proof (Q.min_spec a b); set (m := Qmin a b) in *; clearbody m
    end.

(** ** Properties of the simulation and of the report, in the exact model *)

Section ComponentFacts.
Import Exact.
Local Open Scope Q_scope.

(** *** The totals of a run *)

(** A run stops on the accumulator that its ticks have built. *)
Lemma ticks_final (s : State Q) (n : nat) :
  forall day stats fuel,
    day + inject_Z (Z.of_nat (S n)) * 0.5 == 30 ->
    (S n <= fuel)%nat ->
    exists snaps,
      ticks fuel s day stats
      = (snaps ++ [Nat.iter (S n) (accumulate s) stats],
         Some (calculateFinalReport s (Nat.iter (S n) (accumulate s) stats)))
      /\ length snaps = n.
Proof.
  induction n as [|n IH]; intros day stats fuel Hday Hfuel;
    (destruct fuel as [|fuel]; [lia |]); cbn [ticks].
  - assert (E : geb (add day (lit 0.5)) totalDays = true).
    { apply geb_true. unfold totalDays. qnum.
      change (inject_Z (Z.of_nat 1)) with 1 in Hday. lra. }
    rewrite E. exists []. split; reflexivity.
  - assert (E : geb (add day (lit 0.5)) totalDays = false).
    { apply not_true_iff_false. rewrite geb_true. unfold totalDays. qnum.
      rewrite Nat2Z.inj_succ, <- Z.add_1_r, inject_Z_plus in Hday.
      change (inject_Z 1) with 1 in Hday.
      assert (0 < inject_Z (Z.of_nat (S n)))
        by (change 0 with (inject_Z 0); rewrite <- Zlt_Qlt; lia).
      lra. }
    rewrite E.
    destruct (IH (add day (lit 0.5)) (accumulate s stats) fuel)
      as (snaps & Hrun).
    + qnum. rewrite (Nat2Z.inj_succ (S n)), <- Z.add_1_r, inject_Z_plus in Hday.
      change (inject_Z 1) with 1 in Hday. lra.
    + lia.
    + destruct Hrun as (Hrun & Hlen). rewrite Hrun.
      rewrite <- Nat.iter_succ_r.
      exists (accumulate s stats :: snaps).
      split; [reflexivity | cbn; lia].
Qed.

(** After [k] ticks each total is [k] halves of the daily figure. *)
Lemma accumulate_iter (s : State Q) (k : nat) :
  let f := computeFormula s in
  let stats := Nat.iter k (accumulate s) initialStats in
  let halves := inject_Z (Z.of_nat k) * (1 # 2) in
  Stats.solarGenerated stats == halves * Formula.G f /\
  Stats.houseConsumed stats == halves * (Formula.A f / 30) /\
  Stats.gridExport stats == halves * Formula.dailyExportKwh f /\
  Stats.gridImport stats == halves * Formula.dailyTnbKwh f /\
  Stats.wastedMoney stats == 0.
Proof.
  induction k as [|k IH]; cbv zeta in *.
  - cbn. repeat split; lra.
  - rewrite Nat.iter_succ. destruct IH as (H1 & H2 & H3 & H4 & H5).
    set (prev := Nat.iter k (accumulate s) initialStats) in *.
    unfold accumulate.
    cbn [Stats.solarGenerated Stats.houseConsumed Stats.gridExport
         Stats.gridImport Stats.wastedMoney].
    qnum. rewrite H1, H2, H3, H4, H5.
    rewrite Nat2Z.inj_succ, <- Z.add_1_r, inject_Z_plus.
    change (inject_Z 1) with 1.
    repeat split; field.
Qed.

(** A complete run takes sixty ticks, however long the timer is watched,
    and ends on thirty days of the daily figures: the generation, the
    consumption (the monthly usage), the export and the import; the
    report it stores gives the self-consumption as usage less import,
    the export, and a lost value of 0.21 a kWh exported. *)
Theorem complete_run_totals (s : State Q) (extra : nat) :
  let f := computeFormula s in
  exists snaps final,
    runSimulation (60 + extra) s
    = (snaps ++ [final], Some (calculateFinalReport s final)) /\
    length snaps = 59%nat /\
    Stats.solarGenerated final == 30 * Formula.G f /\
    Stats.houseConsumed final == Formula.A f /\
    Stats.gridExport final == 30 * Formula.dailyExportKwh f /\
    Stats.gridImport final == 30 * Formula.dailyTnbKwh f /\
    Report.totalUsed (calculateFinalReport s final)
    == Formula.A f - 30 * Formula.dailyTnbKwh f /\
    Report.totalExported (calculateFinalReport s final)
    == 30 * Formula.dailyExportKwh f /\
    Report.lossAmount (calculateFinalReport s final)
    == 6.3 * Formula.dailyExportKwh f.
Proof.
  intros f. unfold runSimulation.
  destruct (ticks_final s 59 (lit 0) initialStats (60 + extra))
    as (snaps & Hrun & Hlen); [vm_compute; reflexivity | lia |].
  destruct (accumulate_iter s 60) as (H1 & H2 & H3 & H4 & _).
  fold f in H1, H2, H3, H4.
  set (final := Nat.iter 60 (accumulate s) initialStats) in *.
  change (inject_Z (Z.of_nat 60) * (1 # 2)) with (60 * (1 # 2)) in *.
  exists snaps, final. split; [exact Hrun |]. split; [exact Hlen |].
  unfold calculateFinalReport, AVG_GRID_RATE, NEM_EXPORT_RATE.
  cbn [Report.totalUsed Report.totalExported Report.lossAmount]. qnum.
  rewrite H1, H2, H3, H4. repeat split; field.
Qed.


(** *** The bill as a function of the configuration *)

Lemma flat_rate_quotient (x : Q) : x / TNB_RATE_PER_KWH == 2 * x.
Proof. unfold TNB_RATE_PER_KWH. qnum. field. Qed.

(** The three branches of [computeFormula], with the flat rate and the
    export factors worked in. *)
Lemma billed_energy_cases (s : State Q) :
  let f := computeFormula s in
  let excess := Formula.G f - Formula.B1 f in
  (Formula.G f < Formula.B1 f /\
   Formula.dailyTnbKwh f == Formula.B1 f - Formula.G f + Formula.C1 f /\
   Formula.dailyExportKwh f == 0 /\ Formula.dailyStoredKwh f == 0)
  \/
  (Formula.B1 f <= Formula.G f /\ Formula.H f == 0 /\
   Formula.dailyTnbKwh f
   == 2 * Qmax 0 (Formula.C1 f * (1 # 2) - excess * (7 # 20)) /\
   Formula.dailyExportKwh f == excess /\ Formula.dailyStoredKwh f == 0)
  \/
  (Formula.B1 f <= Formula.G f /\ ~ Formula.H f == 0 /\
   Formula.dailyTnbKwh f
   == 2 * Qmax 0 (Qmax 0 (Formula.C1 f - Formula.dailyStoredKwh f) * (1 # 2)
                  - Formula.dailyExportKwh f * (3 # 20)) /\
   Formula.dailyExportKwh f == Qmax 0 (excess - Formula.J f) /\
   Formula.dailyStoredKwh f == Qmin excess (Formula.J f)).
Proof.
  intros f excess.
  destruct (computeFormula_inputs s) as (_&_&_&_&_&_&_&_&_&_&_&_&HK).
  fold f in HK.
  destruct (gtb (Formula.B1 f) (Formula.G f)) eqn:Ecase.
  - left. destruct (computeFormula_shortfall s Ecase) as (Hk & He & Hs).
    fold f in Hk, He, Hs. to_order. rewrite Hk, He, Hs. qnum.
    repeat split; (assumption || reflexivity).
  - right. destruct (strict_eq (Formula.H f) (lit 0)) eqn:Ebat.
    + left. destruct (computeFormula_export s Ecase Ebat) as (He & Hk & Hs).
      fold f in He, Hk, Hs. to_order. apply strict_eq_true in Ebat.
      rewrite Hk, He, Hs, HK, flat_rate_quotient.
      unfold EXPORT_RATE_FACTOR, TNB_RATE_PER_KWH. qnum.
      repeat split; try (assumption || reflexivity).
      apply Qmult_comp; [reflexivity |]. apply Q.max_compat; [reflexivity |].
      unfold excess. field.
    + right. destruct (computeFormula_battery s Ecase Ebat) as (Hs & He & Hk).
      fold f in Hs, He, Hk. to_order. apply strict_eq_false in Ebat.
      split; [assumption |]. split; [assumption |].
      split; [| split].
      * rewrite Hk, HK, flat_rate_quotient.
        unfold BATTERY_EXPORT_FACTOR, TNB_RATE_PER_KWH. qnum.
        apply Qmult_comp; [reflexivity |]. apply Q.max_compat; [reflexivity |].
        field.
      * rewrite He. apply positive_part_guard.
      * rewrite Hs. reflexivity.
Qed.

Lemma in_range_formula (s : State Q) :
  let f := computeFormula s in
  in_range s ->
  0 <= Formula.A f /\ 0 <= Formula.B1 f /\ 0 <= Formula.C1 f /\
  Formula.B1 f + Formula.C1 f == Formula.A f * (1 # 30) /\
  0 <= Formula.G f /\ 0 <= Formula.H f /\
  Formula.J f == Formula.H f * 10.
Proof.
  intros f (Hm & Hp & Hd & Hw & Hu).
  destruct (computeFormula_inputs_nonneg s Hm Hp Hd Hw Hu)
    as (HB1 & HC1 & HG & HH & HJ & _).
  destruct (computeFormula_inputs s)
    as (HA & HB & HC & HB1' & HC1' & _).
  fold f in HB1, HC1, HG, HH, HJ, HA, HB, HC, HB1', HC1'.
  repeat split; try assumption.
  - rewrite HA. apply adjustedMonthlyKwh_nonneg. exact Hm.
  - rewrite HB1', HC1', HC. qnum. field.
Qed.

Lemma bills_of_formula (s : State Q) (stats : Stats.t Q) :
  let f := computeFormula s in
  let report := calculateFinalReport s stats in
  Report.oldBill report == Formula.A f * (1 # 2) /\
  Report.newBill report == 15 * Formula.dailyTnbKwh f /\
  Formula.monthlyTnbCost f == 15 * Formula.dailyTnbKwh f /\
  Report.monthlySavings report
  == Formula.A f * (1 # 2) - 15 * Formula.dailyTnbKwh f.
Proof.
  intros f report.
  destruct (computeFormula_inputs s) as (_&_&_&_&_&_&_&_&_&_&_&_&HK).
  destruct (computeFormula_costs s) as (Hc & Hm). fold f in HK, Hc, Hm.
  unfold report, calculateFinalReport.
  cbn [Report.oldBill Report.newBill Report.monthlySavings]. fold f.
  rewrite Hm, Hc, HK. unfold TNB_RATE_PER_KWH. qnum.
  repeat split; field.
Qed.

Lemma bills_in_range (s : State Q) (stats : Stats.t Q) :
  let f := computeFormula s in
  let report := calculateFinalReport s stats in
  in_range s ->
  0 <= Formula.dailyTnbKwh f <= Formula.A f * (1 # 30) /\
  0 <= Report.newBill report <= Report.oldBill report /\
  0 <= Report.monthlySavings report <= Report.oldBill report.
Proof.
  intros f report Hr.
  destruct (in_range_formula s Hr) as (HA & HB1 & HC1 & Hsum & HG & HH & HJ).
  destruct (bills_of_formula s stats) as (Ho & Hn & _ & Hs).
  fold f in HA, HB1, HC1, Hsum, HG, HH, HJ, Ho, Hn, Hs.
  fold report in Ho, Hn, Hs.
  assert (Hk : 0 <= Formula.dailyTnbKwh f <= Formula.A f * (1 # 30)).
  { destruct (billed_energy_cases s)
      as [(Hc & Hk & _) | [(Hc & _ & Hk & _) | (Hc & _ & Hk & He & Hst)]];
      fold f in Hc, Hk; try fold f in He, Hst;
      rewrite Hk; try rewrite He, Hst; atomize_minmax; lra. }
  rewrite Ho, Hn, Hs. repeat split; lra.
Qed.

(** Solar never raises the bill: for a configuration in range the billed
    energy of a day lies between nothing and the consumption of the day,
    so that the new bill lies between 0 and the old bill and the savings
    between 0 and the old bill. *)
Theorem new_bill_between_zero_and_old_bill (s : State Q) (stats : Stats.t Q) :
  let f := computeFormula s in
  let report := calculateFinalReport s stats in
  in_range s ->
  0 <= Formula.dailyTnbKwh f <= Formula.A f / 30 /\
  0 <= Report.newBill report <= Report.oldBill report /\
  0 <= Report.monthlySavings report <= Report.oldBill report.
Proof.
  intros f report Hr.
  destruct (bills_in_range s stats Hr) as (Hk & Hn & Hs).
  fold f in Hk. fold report in Hn, Hs.
  split; [| split; assumption].
  setoid_replace (Formula.A f / 30) with (Formula.A f * (1 # 30)) by field.
  exact Hk.
Qed.

Lemma new_bill_between_zero_and_old_bill_witness :
  let s := scenario (num := Q) in
  let f := computeFormula s in
  let report := calculateFinalReport s initialStats in
  in_range s /\
  0 <= Formula.dailyTnbKwh f <= Formula.A f / 30 /\
  0 <= Report.newBill report <= Report.oldBill report /\
  0 <= Report.monthlySavings report <= Report.oldBill report.
Proof.
  split.
  - repeat split; vm_compute; discriminate.
  - apply (new_bill_between_zero_and_old_bill scenario initialStats).
    repeat split; vm_compute; discriminate.
Defined.




(** The fields of the formula that a change of the panel count or of
    the battery leaves alone. *)
Lemma formula_of_setPanelCount (s : State Q) (n : Q) :
  let f := computeFormula s in
  let f' := computeFormula (setPanelCount n s) in
  Formula.A f' = Formula.A f /\ Formula.B1 f' = Formula.B1 f /\
  Formula.C1 f' = Formula.C1 f /\ Formula.H f' = Formula.H f /\
  Formula.J f' = Formula.J f /\
  Formula.G f' = n * (panelWattage s / 1000) * 3.5 /\
  Formula.G f = panelCount s * (panelWattage s / 1000) * 3.5.
Proof.
  intros f f'.
  destruct (computeFormula_inputs s)
    as (HA & HB & HC & HB1 & HC1 & HD & HE & HF & HG & HH & HI & HJ & _).
  destruct (computeFormula_inputs (setPanelCount n s))
    as (HA' & HB' & HC' & HB1' & HC1' & HD' & HE' & HF' & HG' & HH' & HI'
        & HJ' & _).
  fold f in HA, HB, HC, HB1, HC1, HD, HE, HF, HG, HH, HI, HJ.
  fold f' in HA', HB', HC', HB1', HC1', HD', HE', HF', HG', HH', HI', HJ'.
  cbn [setPanelCount audit dayUsagePercent panelWattage panelCount
       hasBattery batteryUnits currentKwhUsage] in *.
  change (Formula.A f' = adjustedMonthlyKwh (audit s)) in HA'.
  clearbody f f'.
  assert (EA : Formula.A f' = Formula.A f)
    by (rewrite HA', HA; reflexivity).
  assert (EB : Formula.B f' = Formula.B f)
    by (rewrite HB', HB, EA; reflexivity).
  assert (EH : Formula.H f' = Formula.H f) by (rewrite HH', HH; reflexivity).
  split; [exact EA |].
  split; [rewrite HB1', HB1, EB; reflexivity |].
  split; [rewrite HC1', HC1, HC', HC, EA, EB; reflexivity |].
  split; [exact EH |].
  split; [rewrite HJ', HJ, EH, HI', HI; reflexivity |].
  split; [rewrite HG', HD', HE', HF' | rewrite HG, HD, HE, HF]; reflexivity.
Qed.

(** Adding panels never raises the bill. *)
Theorem more_panels_never_raise_the_bill (s : State Q) (n : Q) :
  in_range s ->
  panelCount s <= n ->
  Formula.monthlyTnbCost (computeFormula (setPanelCount n s))
  <= Formula.monthlyTnbCost (computeFormula s).
Proof.
  intros Hr Hn.
  destruct (in_range_formula s Hr) as (HA & HB1 & HC1 & Hsum & HG & HH & HJ).
  destruct (formula_of_setPanelCount s n)
    as (_ & EB1 & EC1 & EH & EJ & EG' & EG).
  destruct (bills_of_formula s initialStats) as (_ & _ & Hm & _).
  destruct (bills_of_formula (setPanelCount n s) initialStats)
    as (_ & _ & Hm' & _).
  cbv zeta in *. rewrite Hm, Hm'.
  set (f := computeFormula s) in *.
  set (f' := computeFormula (setPanelCount n s)) in *.
  assert (HGG : Formula.G f <= Formula.G f').
  { rewrite EG, EG'. destruct Hr as (_ & _ & _ & Hw & _).
    assert (0 <= (n - panelCount s) * panelWattage s)
      by (apply Qmult_le_0_compat; lra).
    setoid_replace (n * (panelWattage s / 1000) * 3.5)
      with (panelCount s * (panelWattage s / 1000) * 3.5
            + (n - panelCount s) * panelWattage s * (7 # 2000)) by field.
    lra. }
  destruct (billed_energy_cases s)
    as [(Hc & Hk & Hx & Hst) | [(Hc & H0 & Hk & Hx & Hst)
                               | (Hc & H0 & Hk & Hx & Hst)]];
    destruct (billed_energy_cases (setPanelCount n s))
    as [(Hc' & Hk' & Hx' & Hst') | [(Hc' & H0' & Hk' & Hx' & Hst')
                                   | (Hc' & H0' & Hk' & Hx' & Hst')]];
    fold f in Hc, Hk, Hx, Hst; fold f' in Hc', Hk', Hx', Hst';
    try fold f in H0; try fold f' in H0';
    rewrite EB1, EC1, ?EJ in *; try rewrite EH in *;
    try contradiction;
    rewrite Hk, Hk'; try rewrite Hx, Hst; try rewrite Hx', Hst';
    atomize_minmax; lra.
Qed.

Lemma more_panels_never_raise_the_bill_witness :
  in_range (scenario (num := Q)) /\
  panelCount (scenario (num := Q)) <= 20 /\
  Formula.monthlyTnbCost (computeFormula (setPanelCount 20 scenario))
  <= Formula.monthlyTnbCost (computeFormula (num := Q) scenario).
Proof.
  split; [repeat split; vm_compute; discriminate |].
  split; [vm_compute; discriminate |].
  apply (more_panels_never_raise_the_bill scenario 20).
  - repeat split; vm_compute; discriminate.
  - vm_compute; discriminate.
Defined.






Lemma formula_of_setBatteryUnits (s : State Q) (units : Q) :
  let f := computeFormula s in
  let f' := computeFormula (setBatteryUnits units s) in
  Formula.A f' = Formula.A f /\ Formula.B1 f' = Formula.B1 f /\
  Formula.C1 f' = Formula.C1 f /\ Formula.G f' = Formula.G f /\
  Formula.H f' = (if hasBattery s then units else 0) /\
  Formula.J f' = (if hasBattery s then units else 0) * 10.
Proof.
  intros f f'.
  destruct (computeFormula_inputs s)
    as (HA & HB & HC & HB1 & HC1 & HD & HE & HF & HG & HH & HI & HJ & _).
  destruct (computeFormula_inputs (setBatteryUnits units s))
    as (HA' & HB' & HC' & HB1' & HC1' & HD' & HE' & HF' & HG' & HH' & HI'
        & HJ' & _).
  fold f in HA, HB, HC, HB1, HC1, HD, HE, HF, HG, HH, HI, HJ.
  fold f' in HA', HB', HC', HB1', HC1', HD', HE', HF', HG', HH', HI', HJ'.
  cbn [setBatteryUnits audit dayUsagePercent panelWattage
       panelCount hasBattery batteryUnits] in *.
  change (Formula.A f' = currentKwhUsage s) in HA'.
  clearbody f f'.
  assert (EA : Formula.A f' = Formula.A f)
    by (rewrite HA', HA; reflexivity).
  assert (EB : Formula.B f' = Formula.B f)
    by (rewrite HB', HB, EA; reflexivity).
  split; [exact EA |].
  split; [rewrite HB1', HB1, EB; reflexivity |].
  split; [rewrite HC1', HC1, HC', HC, EA, EB; reflexivity |].
  split; [rewrite HG', HG, HD', HD, HE', HE, HF', HF; reflexivity |].
  split; [exact HH' |].
  rewrite HJ', HH', HI'. reflexivity.
Qed.

(** Once there is a battery, adding units never raises the bill. *)
Theorem more_battery_units_never_raise_the_bill (s : State Q) (units : Q) :
  in_range s ->
  hasBattery s = true ->
  0 < batteryUnits s <= units ->
  Formula.monthlyTnbCost (computeFormula (setBatteryUnits units s))
  <= Formula.monthlyTnbCost (computeFormula s).
Proof.
  intros Hr Hb (Hu0 & Hu).
  destruct (in_range_formula s Hr) as (HA & HB1 & HC1 & Hsum & HG & HH & HJ).
  destruct (formula_of_setBatteryUnits s units)
    as (_ & EB1 & EC1 & EG & EH & EJ).
  destruct (bills_of_formula s initialStats) as (_ & _ & Hm & _).
  destruct (bills_of_formula (setBatteryUnits units s) initialStats)
    as (_ & _ & Hm' & _).
  destruct (computeFormula_inputs s) as (_&_&_&_&_&_&_&_&_&HHdef&_).
  cbv zeta in *. rewrite Hm, Hm'. rewrite Hb in *.
  set (f := computeFormula s) in *.
  set (f' := computeFormula (setBatteryUnits units s)) in *.
  destruct (billed_energy_cases s)
    as [(Hc & Hk & Hx & Hst) | [(Hc & H0 & Hk & Hx & Hst)
                               | (Hc & H0 & Hk & Hx & Hst)]];
    destruct (billed_energy_cases (setBatteryUnits units s))
    as [(Hc' & Hk' & Hx' & Hst') | [(Hc' & H0' & Hk' & Hx' & Hst')
                                   | (Hc' & H0' & Hk' & Hx' & Hst')]];
    fold f in Hc, Hk, Hx, Hst; fold f' in Hc', Hk', Hx', Hst';
    try fold f in H0; try fold f' in H0';
    rewrite ?EB1, ?EC1, ?EG, ?EJ in *;
    try (rewrite EH in H0'; lra);
    try (rewrite HHdef in H0; lra);
    rewrite Hk, Hk'; try rewrite Hx, Hst; try rewrite Hx', Hst';
    rewrite ?HJ, ?HHdef; atomize_minmax; lra.
Qed.

Lemma more_battery_units_never_raise_the_bill_witness :
  let s := scenario_surplus (num := Q) in
  (in_range s /\ hasBattery s = true /\ 0 < batteryUnits s <= 4) /\
  Formula.monthlyTnbCost (computeFormula (setBatteryUnits 4 s))
  <= Formula.monthlyTnbCost (computeFormula s).
Proof.
  cbv zeta. split.
  - repeat split; vm_compute; (discriminate || reflexivity).
  - apply (more_battery_units_never_raise_the_bill scenario_surplus 4).
    + repeat split; vm_compute; discriminate.
    + reflexivity.
    + split; vm_compute; (discriminate || reflexivity).
Defined.

(** *** The figures of the report screen *)

Lemma round_mono (x y : Q) : x <= y -> round x <= round y.
Proof.
  intros H. unfold round. rewrite <- Zle_Qle. apply Qfloor_resp_le. lra.
Qed.

Lemma Qmax_0_integer (z : Z) : exists z', Qmax 0 (inject_Z z) = inject_Z z'.
Proof.
  unfold Qmax, GenericMinMax.gmax.
  destruct (0 ?= inject_Z z); [exists 0%Z | exists z | exists 0%Z]; reflexivity.
Qed.

(** For a configuration in range the report screen shows a savings
    percentage that is a whole number between 0 and 100, and a savings
    amount that is the savings rounded to a whole number, never
    negative. *)
Theorem report_figures_in_range (s : State Q) (stats : Stats.t Q) :
  let report := calculateFinalReport s stats in
  in_range s ->
  0 <= savingsPercent report <= 100 /\
  (exists z : Z, savingsPercent report = inject_Z z) /\
  0 <= savingsAmount report /\
  (exists z : Z, savingsAmount report = inject_Z z) /\
  Report.monthlySavings report - (1 # 2) < savingsAmount report
    <= Report.monthlySavings report + (1 # 2).
Proof.
  intros report Hr.
  destruct (bills_in_range s stats Hr) as (_ & _ & Hs0 & Hs1).
  fold report in Hs0, Hs1.
  unfold savingsPercent, savingsAmount. qnum.
  change (@Math_round Q QNumber) with round.
  split; [| split; [| split; [| split]]].
  - case_if Eo; [| lra].
    set (x := Report.monthlySavings report / Report.oldBill report * 100).
    assert (Hx : 0 <= x <= 100).
    { unfold x. split.
      - apply Qmult_le_0_compat; [| lra].
        apply Qle_shift_div_l; [exact Eo | lra].
      - setoid_replace 100 with (1 * 100) at 2 by ring.
        apply Qmult_le_compat_r; [| lra].
        apply Qle_shift_div_r; [exact Eo | lra]. }
    pose proof (round_nonneg x (proj1 Hx)) as H0.
    pose proof (round_mono x 100 (proj2 Hx)) as H1.
    change (round 100) with (round (inject_Z 100)) in H1.
    rewrite round_integer in H1.
    change (inject_Z 100) with 100 in H1.
    rewrite Q.max_r by exact H0. split; assumption.
  - case_if Eo; [| exists 0%Z; reflexivity].
    unfold round. apply Qmax_0_integer.
  - apply Q.le_max_l.
  - unfold round. apply Qmax_0_integer.
  - pose proof (round_nearest (Report.monthlySavings report)) as Hn.
    pose proof (round_nonneg _ Hs0) as H0.
    rewrite Q.max_r by exact H0. exact Hn.
Qed.

Lemma report_figures_in_range_witness :
  let report := calculateFinalReport (num := Q) scenario initialStats in
  in_range scenario /\
  0 <= savingsPercent report <= 100 /\
  (exists z : Z, savingsPercent report = inject_Z z) /\
  0 <= savingsAmount report /\
  (exists z : Z, savingsAmount report = inject_Z z) /\
  Report.monthlySavings report - (1 # 2) < savingsAmount report
    <= Report.monthlySavings report + (1 # 2).
Proof.
  split.
  - repeat split; vm_compute; discriminate.
  - apply (report_figures_in_range scenario initialStats).
    repeat split; vm_compute; discriminate.
Defined.

(** The alert of the report screen is shown, after a complete run,
    exactly when there is no battery and the export of a day exceeds
    [50 / 6.3] kWh, that is when thirty days of export lose more than 50
    at 0.21 a kWh. *)
Theorem trap_alert_after_complete_run (s : State Q) (extra : nat) :
  exists report,
    snd (runSimulation (60 + extra) s) = Some report /\
    (trapAlertShown s report = true <->
     hasBattery s = false /\
     50 < 6.3 * Formula.dailyExportKwh (computeFormula s)).
Proof.
  unfold runSimulation.
  destruct (ticks_final s 59 (lit 0) initialStats (60 + extra))
    as (snaps & Hrun & _); [vm_compute; reflexivity | lia |].
  destruct (accumulate_iter s 60) as (_ & _ & H3 & _).
  set (final := Nat.iter 60 (accumulate s) initialStats) in *.
  change (inject_Z (Z.of_nat 60) * (1 # 2)) with (60 * (1 # 2)) in H3.
  exists (calculateFinalReport s final). rewrite Hrun. split; [reflexivity |].
  unfold trapAlertShown, isTrapDetected.
  rewrite andb_true_iff, negb_true_iff, gtb_true.
  unfold calculateFinalReport, AVG_GRID_RATE, NEM_EXPORT_RATE.
  cbn [Report.lossAmount]. qnum. rewrite H3.
  split; intros (H1 & H2); split; try assumption; lra.
Qed.

(** *** The system size *)


(** In exact arithmetic the size shown for the system is the one that
    the allocation uses as long as there is a panel: the generation of
    a day is the size shown times 3.5; with no panel the screen shows
    the recommended size, of 3 kWp at least, while the allocation
    generates nothing.  In doubles the generation, [D * (W / 1000) *
    3.5], and the size shown times 3.5, [(W * D) / 1000 * 3.5], can
    differ in the last bits: for six panels of 700 W they are not the
    same double, and less than [1e-9] apart. *)
Theorem effectiveSystemSize_and_generation (s : State Q) :
  let f := computeFormula s in
  let s64 := scenario_700W (num := Binary64.float) in
  (0 < panelCount s ->
   Formula.G f == effectiveSystemSize s * 3.5 /\
   Formula.G f == panelCount s * (panelWattage s / 1000) * 3.5) /\
  (panelCount s == 0 -> Formula.G f == 0 /\ 3 <= effectiveSystemSize s) /\
  (strict_eq (Formula.G (computeFormula s64))
     (mul (effectiveSystemSize s64) (lit 3.5)) = false /\
   Binary64.close (Formula.G (computeFormula s64))
     (mul (effectiveSystemSize s64) (lit 3.5)) = true).
Proof.
  intros f s64.
  assert (H64 : strict_eq (Formula.G (computeFormula s64))
                  (mul (effectiveSystemSize s64) (lit 3.5)) = false /\
                Binary64.close (Formula.G (computeFormula s64))
                  (mul (effectiveSystemSize s64) (lit 3.5)) = true)
    by (split; vm_compute; reflexivity).
  destruct (computeFormula_loads s) as (_ & _ & HGin). fold f in HGin.
  cut ((0 < panelCount s -> Formula.G f == effectiveSystemSize s * 3.5) /\
       (panelCount s == 0 -> Formula.G f == 0 /\ 3 <= effectiveSystemSize s)).
  { intros (Hshown & Hnone).
    split; [| split; [exact Hnone | exact H64]].
    intros Hp. split; [exact (Hshown Hp) | rewrite HGin; reflexivity]. }
  clear H64 HGin s64.
  destruct (computeFormula_inputs s) as (_&_&_&_&_&HD&HE&HF&HG&_).
  fold f in HD, HE, HF, HG.
  unfold effectiveSystemSize, selectedSystemSize. split.
  - intros Hp. apply gtb_true in Hp.
    change (gtb (panelCount s) (lit 0) = true) in Hp. rewrite Hp.
    rewrite HG, HD, HE, HF. unfold SOLAR_YIELD_PER_KW. qnum. field.
  - intros Hp.
    assert (E : gtb (panelCount s) (lit 0) = false)
      by (apply gtb_false; qnum; lra).
    rewrite E. split.
    + rewrite HG, HD, Hp. qnum. lra.
    + unfold recommendedSystemSize. qnum. atomize_minmax. lra.
Qed.

(** *** The input handlers *)

(** Leaving the usage field puts the usage between 200 and 3000 kWh and
    leaving the panel field puts the count between 6 and 40; a value
    already in range is kept, a text that is not a number changes
    nothing. *)
Theorem blur_handlers_clamp (v : Q) (a : Audit Q) (s : State Q) :
  200 <= monthlyKwh (normalizeMonthlyKwh (Some v) a) <= 3000 /\
  (200 <= v <= 3000 -> monthlyKwh (normalizeMonthlyKwh (Some v) a) == v) /\
  normalizeMonthlyKwh None a = a /\
  6 <= panelCount (normalizePanelCount (Some v) s) <= 40 /\
  (6 <= v <= 40 -> panelCount (normalizePanelCount (Some v) s) == v) /\
  normalizePanelCount None s = s.
Proof.
  unfold normalizeMonthlyKwh, normalizePanelCount.
  cbn [monthlyKwh panelCount]. qnum.
  split; [atomize_minmax; lra |].
  split; [intros Hv; atomize_minmax; lra |].
  split; [destruct a; reflexivity |].
  split; [atomize_minmax; lra |].
  split; [intros Hv; atomize_minmax; lra |].
  destruct s; reflexivity.
Qed.

(** *** The phone number *)

Lemma phoneDigits_all_digits (phone : list N) :
  forallb is_digit (phoneDigits phone) = true.
Proof.
  apply forallb_forall. intros c Hc. apply filter_In in Hc. tauto.
Qed.

(** The phone number is accepted exactly when it holds nine to twelve
    digits, whatever else it holds: a character that is not a digit,
    anywhere in it, changes nothing. *)
Theorem isPhoneValid_counts_digits (phone : list N) :
  (isPhoneValid phone = true <->
   (9 <= length (filter is_digit phone) <= 12)%nat) /\
  (forall before after c,
     is_digit c = false ->
     phone = before ++ c :: after ->
     isPhoneValid phone = isPhoneValid (before ++ after)) /\
  phoneDigits (phoneDigits phone) = phoneDigits phone.
Proof.
  split; [| split].
  - unfold isPhoneValid, test_9_to_12_digits.
    rewrite phoneDigits_all_digits. cbn [andb]. unfold phoneDigits.
    rewrite andb_true_iff, !Nat.leb_le. tauto.
  - intros before after c Hc ->. unfold isPhoneValid, phoneDigits.
    rewrite !filter_app. cbn [filter]. rewrite Hc. reflexivity.
  - unfold phoneDigits. induction phone as [|c phone IH]; [reflexivity |].
    cbn [filter]. destruct (is_digit c) eqn:E; [| exact IH].
    cbn [filter]. rewrite E, IH. reflexivity.
Qed.

End ComponentFacts.

(** ** Properties of the variant that starts from the bill *)

Section BillVariantFacts.
Import Exact.
Local Open Scope Q_scope.

Lemma open_ended_blockSum_zero (tiers : list (Tier Q)) (x : Q) :
  open_ended tiers -> x == 0 -> blockSum tiers x == 0.
Proof.
  intros Ho. revert x.
  induction Ho as [r rest Hr | w r rest Hw Hr Ho IH]; intros x Hx;
    cbn [blockSum limit rate].
  - rewrite Hx. ring.
  - rewrite (IH (Qmax 0 (x - w))) by (apply Q.max_l; lra).
    rewrite Q.min_l by lra. rewrite Hx. ring.
Qed.

Lemma open_ended_blockSum_pos (tiers : list (Tier Q)) (x : Q) :
  open_ended tiers -> 0 < x -> 0 < blockSum tiers x.
Proof.
  intros Ho. revert x.
  induction Ho as [r rest Hr | w r rest Hw Hr Ho IH]; intros x Hx;
    cbn [blockSum limit rate].
  - apply Qmult_lt_0_compat; assumption.
  - destruct (Qlt_le_dec w x) as [Hlt | Hle].
    + assert (0 < blockSum rest (Qmax 0 (x - w)))
        by (apply IH; rewrite Q.max_r by lra; lra).
      assert (0 <= r * Qmin x w).
      { apply Qmult_le_0_compat; [lra |]. rewrite Q.min_r by lra. exact Hw. }
      lra.
    + rewrite (open_ended_blockSum_zero rest (Qmax 0 (x - w)) Ho)
        by (apply Q.max_l; lra).
      rewrite Q.min_l by exact Hle.
      assert (0 < r * x) by (apply Qmult_lt_0_compat; assumption). lra.
Qed.

(** [calculateBillToKwh] undoes the block tariff. *)
Lemma billLoop_blockSum (tiers : list (Tier Q)) :
  open_ended tiers ->
  forall x b t,
    0 <= x -> b == blockSum tiers x ->
    fst (BillVariant.billLoop tiers b t) == t + x /\
    snd (BillVariant.billLoop tiers b t) == 0.
Proof.
  induction 1 as [r rest Hr | w r rest Hw Hr Ho IH]; intros x b t Hx Hb;
    cbn [BillVariant.billLoop blockSum limit rate fst snd] in *.
  - qnum. cbn [fst snd]. split; [| reflexivity].
    rewrite Hb. field. lra.
  - destruct (Qlt_le_dec w x) as [Hlt | Hle].
    + pose proof (open_ended_blockSum_pos rest (x - w) Ho) as Hpos.
      rewrite (blockSum_compat rest (Qmax 0 (x - w)) (x - w)) in Hb
        by (apply Q.max_r; lra).
      rewrite Q.min_r in Hb by lra.
      assert (E : leb b (mul w r) = false) by (apply leb_false; qnum; lra).
      rewrite E.
      destruct (IH (x - w) (sub b (mul w r)) (add t w)) as (H1 & H2).
      * lra.
      * qnum. lra.
      * split; [rewrite H1; qnum; ring | exact H2].
    + rewrite (open_ended_blockSum_zero rest (Qmax 0 (x - w)) Ho) in Hb
        by (apply Q.max_l; lra).
      rewrite Q.min_l in Hb by exact Hle.
      assert (r * x <= w * r).
      { rewrite (Qmult_comm w r). apply Qmult_le_l; assumption. }
      assert (E : leb b (mul w r) = true) by (apply leb_true; qnum; lra).
      rewrite E. qnum. cbn [fst snd]. split; [| reflexivity].
      rewrite Hb. field. lra.
Qed.

(** [calculateBillToKwh] finds an energy whose block tariff is the
    bill. *)
Lemma billLoop_inverse (tiers : list (Tier Q)) :
  open_ended tiers ->
  forall b t,
    0 <= b ->
    exists x,
      0 <= x /\ blockSum tiers x == b /\
      fst (BillVariant.billLoop tiers b t) == t + x /\
      snd (BillVariant.billLoop tiers b t) == 0.
Proof.
  induction 1 as [r rest Hr | w r rest Hw Hr Ho IH]; intros b t Hb;
    cbn [BillVariant.billLoop blockSum limit rate].
  - exists (b / r). qnum. cbn [fst snd].
    split; [apply Qle_shift_div_l; lra |].
    split; [field; lra |]. split; reflexivity.
  - destruct (leb b (mul w r)) eqn:E.
    + apply leb_true in E. qnum. exists (b / r). cbn [fst snd].
      assert (H0 : 0 <= b / r) by (apply Qle_shift_div_l; lra).
      assert (H1 : b / r <= w) by (apply Qle_shift_div_r; lra).
      split; [exact H0 |]. split; [| split; reflexivity].
      rewrite (open_ended_blockSum_zero rest (Qmax 0 (b / r - w)) Ho)
        by (apply Q.max_l; lra).
      rewrite Q.min_l by exact H1. field. lra.
    + apply leb_false in E. qnum.
      destruct (IH (b - w * r) (t + w)) as (x & Hx & Hsum & H1 & H2);
        [lra |].
      exists (w + x). split; [lra |]. split; [| split].
      * rewrite (blockSum_compat rest (Qmax 0 (w + x - w)) x)
          by (rewrite Q.max_r by lra; ring).
        rewrite Q.min_r by lra. rewrite Hsum. ring.
      * rewrite H1. ring.
      * exact H2.
Qed.

Lemma TARIFF_TIERS_open_ended : open_ended TARIFF_TIERS.
Proof.
  unfold TARIFF_TIERS.
  repeat (apply open_ended_cons; [vm_compute; discriminate | reflexivity |]).
  apply open_ended_last. reflexivity.
Qed.

Lemma TARIFF_TIERS_limits_nonneg : limits_nonneg TARIFF_TIERS.
Proof. repeat constructor; vm_compute; discriminate. Qed.

(** The energy estimated from the bill of an energy is that energy. *)
Theorem calculateBillToKwh_of_bill (kwh : Q) :
  0 <= kwh ->
  BillVariant.calculateBillToKwh (calculateKwhToBill kwh) == kwh.
Proof.
  intros Hx. unfold BillVariant.calculateBillToKwh.
  destruct (billLoop_blockSum TARIFF_TIERS TARIFF_TIERS_open_ended kwh
              (calculateKwhToBill kwh) (lit 0) Hx) as (H1 & H2).
  { unfold calculateKwhToBill.
    rewrite (tierLoop_blockSum _ TARIFF_TIERS_limits_nonneg _ _ Hx).
    qnum. ring. }
  destruct (BillVariant.billLoop TARIFF_TIERS (calculateKwhToBill kwh) (lit 0))
    as (totalKwh, remainingBill).
  cbn [fst snd] in H1, H2.
  assert (E : gtb remainingBill (lit 0) = false)
    by (apply gtb_false; qnum; lra).
  rewrite E, H1. qnum. ring.
Qed.

Lemma calculateBillToKwh_of_bill_witness :
  0 <= 900 /\
  BillVariant.calculateBillToKwh (calculateKwhToBill 900) == 900.
Proof.
  split; [vm_compute; discriminate |].
  apply (calculateBillToKwh_of_bill 900). vm_compute. discriminate.
Defined.

(** The bill of the energy estimated from a bill is that bill. *)
Theorem calculateKwhToBill_of_estimate (billAmount : Q) :
  0 <= billAmount ->
  calculateKwhToBill (BillVariant.calculateBillToKwh billAmount)
  == billAmount /\
  0 <= BillVariant.calculateBillToKwh billAmount.
Proof.
  intros Hb. unfold BillVariant.calculateBillToKwh.
  destruct (billLoop_inverse TARIFF_TIERS TARIFF_TIERS_open_ended billAmount
              (lit 0) Hb) as (x & Hx & Hsum & H1 & H2).
  destruct (BillVariant.billLoop TARIFF_TIERS billAmount (lit 0))
    as (totalKwh, remainingBill).
  cbn [fst snd] in H1, H2.
  assert (E : gtb remainingBill (lit 0) = false)
    by (apply gtb_false; qnum; lra).
  rewrite E. qnum.
  assert (Ht : totalKwh == x) by (rewrite H1; ring).
  assert (H0 : 0 <= totalKwh) by lra.
  split; [| exact H0].
  unfold calculateKwhToBill.
  rewrite (tierLoop_blockSum _ TARIFF_TIERS_limits_nonneg _ _ H0).
  rewrite (blockSum_compat _ _ _ Ht), Hsum. qnum. ring.
Qed.

Lemma calculateKwhToBill_of_estimate_witness :
  0 <= 450 /\
  calculateKwhToBill (BillVariant.calculateBillToKwh 450) == 450 /\
  0 <= BillVariant.calculateBillToKwh 450.
Proof.
  split; [vm_compute; discriminate |].
  apply (calculateKwhToBill_of_estimate 450). vm_compute. discriminate.
Defined.


(** The report of the variant never shows a negative bill, nor savings
    above the old bill; exporting only lowers the bill, down from the
    tariff of the import; and importing more never lowers it. *)
Theorem tariff_report_bounds (currentBill : Q) (stats : Stats.t Q) :
  let report := BillVariant.calculateFinalReport currentBill stats in
  0 <= Report.newBill report /\
  Report.monthlySavings report <= Report.oldBill report /\
  (0 <= Stats.gridExport stats ->
   Report.newBill report <= calculateKwhToBill (Stats.gridImport stats)) /\
  (forall stats' : Stats.t Q,
     Stats.gridExport stats' == Stats.gridExport stats ->
     Stats.gridImport stats <= Stats.gridImport stats' ->
     Report.newBill report
     <= Report.newBill (BillVariant.calculateFinalReport currentBill stats')).
Proof.
  intros report. unfold report, BillVariant.calculateFinalReport.
  cbn [Report.newBill Report.monthlySavings Report.oldBill].
  unfold NEM_EXPORT_RATE. qnum.
  pose proof (tierLoop_ge_bill TARIFF_TIERS TARIFF_TIERS_rates_nonneg
                (Stats.gridImport stats) 0) as Hge.
  change (0 <= calculateKwhToBill (Stats.gridImport stats)) in Hge.
  split; [apply Q.le_max_l |].
  split; [pose proof (Q.le_max_l 0
            (calculateKwhToBill (Stats.gridImport stats)
             - Stats.gridExport stats * 0.24)); lra |].
  split.
  - intros Hx. atomize_minmax. lra.
  - intros stats' Hx Hi.
    pose proof (tierLoop_mono TARIFF_TIERS TARIFF_TIERS_rates_nonneg
                  _ _ 0 0 Hi (Qle_refl 0)) as Hmono.
    change (calculateKwhToBill (Stats.gridImport stats)
            <= calculateKwhToBill (Stats.gridImport stats')) in Hmono.
    rewrite Hx. atomize_minmax. lra.
Qed.

End BillVariantFacts.

(** ** The day shown during the simulation *)

Section DisplayedDayFacts.
Import Exact.
Local Open Scope Q_scope.

(** In exact arithmetic the day shown is the whole part of the day
    counter, up to 30. *)
Lemma dayAfter_halves (k : nat) :
  dayAfter (num := Q) k == inject_Z (Z.of_nat k) * (1 # 2).
Proof.
  induction k as [|k IH]; cbn [dayAfter].
  - reflexivity.
  - cbn [add lit QNumber]. rewrite IH.
    rewrite Nat2Z.inj_succ, <- Z.add_1_r, inject_Z_plus.
    change (inject_Z 1) with 1. field.
Qed.

Lemma exact_displayedDay (k : nat) :
  (k <= 60)%nat ->
  displayedDay (num := Q) (progress (dayAfter k))
  == inject_Z (Z.of_nat (k / 2)).
Proof.
  intros Hk. unfold displayedDay, progress, totalDays.
  cbn [add sub mul div lit Math_min Math_floor QNumber QRounding].
  assert (E : dayAfter k / 30 * 100 / 100 * 30
              == inject_Z (Z.of_nat k) / inject_Z 2).
  { rewrite dayAfter_halves. change (inject_Z 2) with 2. field. }
  rewrite E, <- Zdiv_Qdiv.
  change 2%Z with (Z.of_nat 2). rewrite <- Nat2Z.inj_div.
  apply Q.min_r. change 30 with (inject_Z (Z.of_nat 30)).
  rewrite <- Zle_Qle. apply Nat2Z.inj_le.
  change 30%nat with (60 / 2)%nat. apply Nat.Div0.div_le_mono. exact Hk.
Qed.

End DisplayedDayFacts.

(** In doubles the day shown during a run is the whole part of the day
    counter, except after the ticks 10, 14, 20, 28, 40 and 56 (the days
    5, 7, 10, 14, 20 and 28), when it is one day short; the run ends on
    a progress of exactly 100 and on day 30. *)
Theorem binary64_displayedDay (k : nat) :
  (k <= 60)%nat ->
  PrimFloat.eqb (binary64_shown_day k) (binary64_expected_day k) = true /\
  progress (num := Binary64.float) (dayAfter 60) = lit 100 /\
  binary64_shown_day 60 = lit 30.
Proof.
  intros Hk. split; [| split; vm_compute; reflexivity].
  assert (Hall : forallb
            (fun k => PrimFloat.eqb (binary64_shown_day k)
                        (binary64_expected_day k))
            (List.seq 0 61) = true) by (vm_compute; reflexivity).
  rewrite forallb_forall in Hall. apply Hall. apply in_seq. lia.
Qed.

Lemma binary64_displayedDay_witness :
  (10 <= 60)%nat /\
  PrimFloat.eqb (binary64_shown_day 10) (binary64_expected_day 10) = true /\
  progress (num := Binary64.float) (dayAfter 60) = lit 100 /\
  binary64_shown_day 60 = lit 30.
Proof.
  split; [lia |]. apply (binary64_displayedDay 10). lia.
Defined.

Section ScheduleFacts.
Import BillVariant.
Local Open Scope nat_scope.

Lemma ApplianceId_eqb_eq (a b : ApplianceId) :
  ApplianceId_eqb a b = true <-> a = b.
Proof. destruct a, b; cbn; split; (reflexivity || discriminate). Qed.

Lemma itemsAt_setItems_same (hour : nat) (items : list ApplianceId)
    (sch : Schedule) :
  itemsAt hour (setItems hour items sch) = items.
Proof.
  induction sch as [|(key, v) rest IH]; cbn [setItems itemsAt].
  - rewrite Nat.eqb_refl. reflexivity.
  - destruct (Nat.ltb hour key) eqn:Elt; cbn [itemsAt].
    + rewrite Nat.eqb_refl. reflexivity.
    + destruct (Nat.eqb hour key) eqn:Eeq; cbn [itemsAt].
      * rewrite Nat.eqb_refl. reflexivity.
      * rewrite Eeq. exact IH.
Qed.

Lemma itemsAt_setItems_other (hour other : nat) (items : list ApplianceId)
    (sch : Schedule) :
  other <> hour ->
  itemsAt other (setItems hour items sch) = itemsAt other sch.
Proof.
  intros Hne. apply Nat.eqb_neq in Hne.
  induction sch as [|(key, v) rest IH]; cbn [setItems itemsAt].
  - rewrite Hne. reflexivity.
  - destruct (Nat.ltb hour key) eqn:Elt; cbn [itemsAt].
    + rewrite Hne. reflexivity.
    + destruct (Nat.eqb hour key) eqn:Eeq; cbn [itemsAt].
      * apply Nat.eqb_eq in Eeq. subst key. rewrite Hne. reflexivity.
      * rewrite IH. reflexivity.
Qed.

Lemma setItems_keys (hour : nat) (items : list ApplianceId) (sch : Schedule) :
  forall k, In k (map fst (setItems hour items sch)) ->
            k = hour \/ In k (map fst sch).
Proof.
  induction sch as [|(key, v) rest IH]; cbn [setItems map fst]; intros k Hk.
  - destruct Hk as [<- | []]. left. reflexivity.
  - destruct (Nat.ltb hour key); [| destruct (Nat.eqb hour key)];
      cbn [map fst In] in *.
    + destruct Hk as [<- | Hk]; [left; reflexivity | right; exact Hk].
    + destruct Hk as [<- | Hk]; [left; reflexivity | right; right; exact Hk].
    + destruct Hk as [<- | Hk]; [right; left; reflexivity |].
      destruct (IH k Hk) as [-> | Hin];
        [left; reflexivity | right; right; exact Hin].
Qed.

Lemma setItems_ascending (hour : nat) (items : list ApplianceId)
    (sch : Schedule) :
  ascending sch -> ascending (setItems hour items sch).
Proof.
  unfold ascending.
  induction sch as [|(key, v) rest IH]; cbn [setItems map fst]; intros Hs.
  - repeat constructor.
  - inversion Hs as [|? ? Hrest Hall]; subst.
    destruct (Nat.ltb hour key) eqn:Elt;
      [| destruct (Nat.eqb hour key) eqn:Eeq]; cbn [map fst].
    + apply Nat.ltb_lt in Elt. constructor; [exact Hs |].
      constructor; [exact Elt |].
      eapply Forall_impl; [| exact Hall]. intros k Hk. lia.
    + apply Nat.eqb_eq in Eeq. subst key. constructor; assumption.
    + apply Nat.ltb_ge in Elt. apply Nat.eqb_neq in Eeq.
      constructor; [apply IH; exact Hrest |].
      apply Forall_forall. intros k Hk.
      destruct (setItems_keys hour items rest k Hk) as [-> | Hin]; [lia |].
      rewrite Forall_forall in Hall. apply Hall. exact Hin.
Qed.

(** A click on an hour of the schedule changes nothing without a
    selected appliance, or on a working hour of an office worker;
    otherwise it changes that hour alone, adding the appliance at the end
    when it is not there and removing it when it is, so that an hour
    never lists an appliance twice; the keys stay ascending. *)
Theorem toggleScheduleItem_effect (profile : ResidentProfile)
    (tool : ApplianceId) (hour : nat) (sch : Schedule) :
  let sch' := toggleScheduleItem profile (Some tool) hour sch in
  toggleScheduleItem profile None hour sch = sch /\
  (profile = NineToFive -> 9 <= hour <= 17 -> sch' = sch) /\
  (forall other, other <> hour -> itemsAt other sch' = itemsAt other sch) /\
  (profile = Home \/ hour < 9 \/ 17 < hour ->
   (~ In tool (itemsAt hour sch) ->
    itemsAt hour sch' = itemsAt hour sch ++ [tool] /\
    itemsAt hour (toggleScheduleItem profile (Some tool) hour sch')
    = itemsAt hour sch) /\
   (In tool (itemsAt hour sch) ->
    ~ In tool (itemsAt hour sch') /\
    forall other, other <> tool ->
      (In other (itemsAt hour sch') <-> In other (itemsAt hour sch)))) /\
  (NoDup (itemsAt hour sch) -> NoDup (itemsAt hour sch')) /\
  (ascending sch -> ascending sch').
Proof.
  intros sch'.
  assert (Hlocked : profile = NineToFive -> 9 <= hour <= 17 ->
            (match profile with NineToFive => true | Home => false end
             && (Nat.leb 9 hour && Nat.leb hour 17)) = true).
  { intros -> (H1 & H2). apply Nat.leb_le in H1, H2.
    rewrite H1, H2. reflexivity. }
  assert (Hfree : profile = Home \/ hour < 9 \/ 17 < hour ->
            (match profile with NineToFive => true | Home => false end
             && (Nat.leb 9 hour && Nat.leb hour 17)) = false).
  { intros [-> | [H | H]]; [reflexivity | |].
    - apply Nat.leb_gt in H. rewrite H. apply andb_false_r.
    - apply Nat.leb_gt in H. rewrite H, !andb_false_r. reflexivity. }
  assert (Hin : existsb (ApplianceId_eqb tool) (itemsAt hour sch) = true
                <-> In tool (itemsAt hour sch)).
  { rewrite existsb_exists. split.
    - intros (x & Hx & E). apply ApplianceId_eqb_eq in E. subst x. exact Hx.
    - intros H. exists tool. split; [exact H |]. apply ApplianceId_eqb_eq.
      reflexivity. }
  assert (Hfilter : forall other items,
            In other (filter (fun id => negb (ApplianceId_eqb id tool)) items)
            <-> In other items /\ other <> tool).
  { intros other items. rewrite filter_In, negb_true_iff.
    rewrite <- not_true_iff_false, ApplianceId_eqb_eq. tauto. }
  split; [reflexivity |]. split; [| split; [| split; [| split]]].
  - intros Hp Hh. unfold sch', toggleScheduleItem.
    rewrite (Hlocked Hp Hh). reflexivity.
  - intros other Hne. unfold sch', toggleScheduleItem.
    destruct (_ && (_ && _)); [reflexivity |].
    apply itemsAt_setItems_other. exact Hne.
  - intros Hf. specialize (Hfree Hf). split.
    + intros Hnot.
      assert (E : existsb (ApplianceId_eqb tool) (itemsAt hour sch) = false).
      { apply not_true_iff_false. rewrite Hin. exact Hnot. }
      assert (E' : itemsAt hour sch' = itemsAt hour sch ++ [tool]).
      { unfold sch', toggleScheduleItem. rewrite Hfree. cbv zeta.
        rewrite E. apply itemsAt_setItems_same. }
      split; [exact E' |].
      unfold toggleScheduleItem. rewrite Hfree. cbv zeta.
      rewrite itemsAt_setItems_same, E'.
      assert (E2 : existsb (ApplianceId_eqb tool) (itemsAt hour sch ++ [tool])
                   = true).
      { apply existsb_exists. exists tool. split; [| apply ApplianceId_eqb_eq;
                                                    reflexivity].
        apply in_or_app. right. left. reflexivity. }
      rewrite E2, filter_app. cbn [filter].
      assert (E3 : negb (ApplianceId_eqb tool tool) = false).
      { apply negb_false_iff, ApplianceId_eqb_eq. reflexivity. }
      rewrite E3, app_nil_r.
      clear -Hnot. induction (itemsAt hour sch) as [|x l IH]; [reflexivity |].
      cbn [filter].
      assert (Ex : negb (ApplianceId_eqb x tool) = true).
      { apply negb_true_iff, not_true_iff_false. rewrite ApplianceId_eqb_eq.
        intros ->. apply Hnot. left. reflexivity. }
      rewrite Ex. f_equal. apply IH. intros H. apply Hnot. right. exact H.
    + intros Hyes.
      assert (E : existsb (ApplianceId_eqb tool) (itemsAt hour sch) = true)
        by (apply Hin; exact Hyes).
      assert (E' : itemsAt hour sch'
                   = filter (fun id => negb (ApplianceId_eqb id tool))
                       (itemsAt hour sch)).
      { unfold sch', toggleScheduleItem. rewrite Hfree. cbv zeta.
        rewrite E. apply itemsAt_setItems_same. }
      rewrite E'. split.
      * rewrite Hfilter. tauto.
      * intros other Hne. rewrite Hfilter. tauto.
  - intros Hnd. unfold sch', toggleScheduleItem.
    destruct (_ && (_ && _)); [exact Hnd |]. cbv zeta.
    rewrite itemsAt_setItems_same.
    case_eq (existsb (ApplianceId_eqb tool) (itemsAt hour sch)); intros E.
    + apply NoDup_filter. exact Hnd.
    + apply NoDup_app; [exact Hnd | repeat constructor; intros [] |].
      intros x Hx [<- | []].
      apply not_true_iff_false in E. apply E, Hin. exact Hx.
  - intros Ha. unfold sch', toggleScheduleItem.
    destruct (_ && (_ && _)); [exact Ha |].
    apply setItems_ascending. exact Ha.
Qed.

End ScheduleFacts.

Section FlowsFacts.
Import Exact.
Local Open Scope Q_scope.

Lemma loads_nonneg (apps : list BillVariant.ApplianceId) : 0 <= loads apps.
Proof.
  induction apps as [|a apps IH]; cbn [loads]; [lra |].
  destruct a; cbn [load_of]; lra.
Qed.

Lemma hoursLoad_nonneg (hours : list nat) (sch : BillVariant.Schedule) :
  0 <= hoursLoad hours sch.
Proof.
  induction hours as [|i hours IH]; cbn [hoursLoad]; [lra |].
  pose proof (loads_nonneg (BillVariant.itemsAt i sch)). lra.
Qed.

(** Every appliance of a schedule is found in [APPLIANCES]: the loops
    over the schedule do not throw. *)
Lemma addLoads_total (apps : list BillVariant.ApplianceId) (load_ : Q) :
  exists r, BillVariant.addLoads apps load_ = Some r /\ r == load_ + loads apps.
Proof.
  revert load_. induction apps as [|a apps IH]; intros load_;
    cbn [BillVariant.addLoads loads].
  - exists load_. split; [reflexivity | lra].
  - fold (loads apps).
    assert (E : find (fun x => BillVariant.ApplianceId_eqb (BillVariant.id x) a)
                  BillVariant.APPLIANCES
                = Some (BillVariant.mkAppliance a (load_of a)))
      by (destruct a; reflexivity).
    rewrite E. cbn [BillVariant.load].
    destruct (IH (add load_ (load_of a))) as (r & Hr & Er).
    exists r. split; [exact Hr |]. rewrite Er. qnum. lra.
Qed.

Lemma entriesLoop_total (sch : BillVariant.Schedule) (load_ : Q) :
  exists r,
    BillVariant.entriesLoop sch load_ = Some r /\ r == load_ + entriesLoad sch.
Proof.
  revert load_. induction sch as [|(key, apps) rest IH]; intros load_;
    cbn [BillVariant.entriesLoop entriesLoad].
  - exists load_. split; [reflexivity | lra].
  - fold (entriesLoad rest).
    destruct (addLoads_total apps load_) as (r1 & H1 & E1). rewrite H1.
    destruct (IH r1) as (r & Hr & Er).
    exists r. split; [exact Hr |]. rewrite Er, E1. lra.
Qed.

Lemma windowLoop_total (hours : list nat) (sch : BillVariant.Schedule)
    (load_ : Q) :
  exists r,
    BillVariant.windowLoop hours sch load_ = Some r /\
    r == load_ + hoursLoad hours sch
         + inject_Z (Z.of_nat (length hours)) * 0.2.
Proof.
  revert load_. induction hours as [|i hours IH]; intros load_;
    cbn [BillVariant.windowLoop hoursLoad length].
  - exists load_. split; [reflexivity |].
    change (inject_Z (Z.of_nat 0)) with 0. lra.
  - fold (hoursLoad hours sch).
    destruct (addLoads_total (BillVariant.itemsAt i sch) load_)
      as (r1 & H1 & E1).
    rewrite H1.
    destruct (IH (add r1 (lit 0.2))) as (r & Hr & Er).
    exists r. split; [exact Hr |]. rewrite Er. qnum. rewrite E1.
    rewrite Nat2Z.inj_succ, <- Z.add_1_r, inject_Z_plus.
    change (inject_Z 1) with 1. lra.
Qed.

Lemma hoursLoad_skip (hours : list nat) (key : nat)
    (apps : list BillVariant.ApplianceId) (rest : BillVariant.Schedule) :
  ~ In key hours ->
  hoursLoad hours ((key, apps) :: rest) = hoursLoad hours rest.
Proof.
  induction hours as [|i hours IH]; intros Hk; [reflexivity |].
  cbn [hoursLoad BillVariant.itemsAt].
  assert (E : Nat.eqb i key = false).
  { apply Nat.eqb_neq. intros ->. apply Hk. left. reflexivity. }
  rewrite E, IH; [reflexivity |]. intros H. apply Hk. right. exact H.
Qed.

(** The loads scheduled at distinct hours are part of the loads of the
    whole schedule. *)
Lemma hoursLoad_le_entriesLoad (hours : list nat) (sch : BillVariant.Schedule) :
  NoDup hours -> hoursLoad hours sch <= entriesLoad sch.
Proof.
  intros Hnd. induction sch as [|(key, apps) rest IH].
  - cbn [entriesLoad fold_right]. clear Hnd.
    induction hours as [|i hours IHh]; cbn; [lra |]. lra.
  - cbn [entriesLoad].
    assert (Hstep : hoursLoad hours ((key, apps) :: rest)
                    <= loads apps + hoursLoad hours rest).
    { clear IH. induction Hnd as [|i hours Hi Hnd IHh].
      - cbn [hoursLoad]. pose proof (loads_nonneg apps). lra.
      - cbn [hoursLoad BillVariant.itemsAt].
        destruct (Nat.eqb i key) eqn:E.
        + apply Nat.eqb_eq in E. subst key.
          rewrite (hoursLoad_skip hours i apps rest Hi).
          pose proof (loads_nonneg (BillVariant.itemsAt i rest)). lra.
        + lra. }
    lra.
Qed.

Lemma sun_window_hours : NoDup (List.seq 11 5).
Proof. apply seq_NoDup. Qed.

(** The flows of a day balance: the solar energy used directly, sent to
    the battery and exported add up to the generation, which is not
    zero; the solar energy used, the energy taken from the battery and
    the import add up to the consumption.  No flow is negative, the
    battery gives back no more than it took and takes no more than its
    size, energy is exported only when the battery is full and imported
    only when it is empty; and no appliance of the schedule is missing
    from [APPLIANCES]. *)
Theorem dailyFlows_balance (s : BillVariant.State (num := Q)) :
  0 <= BillVariant.batterySize s ->
  exists flows,
    BillVariant.dailyFlows s = Some flows /\
    0 < BillVariant.dailySolar flows /\
    BillVariant.solarUsedDirectly flows + BillVariant.toBattery flows
      + BillVariant.exported flows == BillVariant.dailySolar flows /\
    BillVariant.solarUsedDirectly flows + BillVariant.fromBattery flows
      + BillVariant.imported flows == BillVariant.totalDailyConsumption flows /\
    0 <= BillVariant.solarUsedDirectly flows /\
    0 <= BillVariant.exported flows /\
    0 <= BillVariant.imported flows /\
    0 <= BillVariant.fromBattery flows <= BillVariant.toBattery flows /\
    BillVariant.toBattery flows <= BillVariant.batterySize s /\
    (BillVariant.hasBattery s = false -> BillVariant.toBattery flows == 0) /\
    (BillVariant.hasBattery s = true -> 0 < BillVariant.exported flows ->
     BillVariant.toBattery flows == BillVariant.batterySize s) /\
    (0 < BillVariant.imported flows ->
     BillVariant.fromBattery flows == BillVariant.toBattery flows).
Proof.
  intros Hsize.
  unfold BillVariant.dailyFlows, BillVariant.calculateLoadInWindow.
  destruct (entriesLoop_total (BillVariant.schedule s) (lit 0))
    as (active & Hactive & Eactive).
  destruct (windowLoop_total (List.seq 11 (16 - 11)) (BillVariant.schedule s)
              (lit 0)) as (window & Hwindow & Ewindow).
  rewrite Hactive, Hwindow. eexists. split; [reflexivity |].
  cbn [BillVariant.dailySolar BillVariant.totalDailyConsumption
       BillVariant.solarUsedDirectly BillVariant.toBattery
       BillVariant.exported BillVariant.fromBattery BillVariant.imported].
  pose proof (hoursLoad_le_entriesLoad (List.seq 11 5) (BillVariant.schedule s)
                sun_window_hours) as Hle.
  pose proof (hoursLoad_nonneg (List.seq 11 5) (BillVariant.schedule s)) as H0.
  change (16 - 11)%nat with 5%nat in Ewindow.
  change (inject_Z (Z.of_nat (length (List.seq 11 5)))) with 5 in Ewindow.
  set (W := hoursLoad (List.seq 11 5) (BillVariant.schedule s)) in *.
  set (E := entriesLoad (BillVariant.schedule s)) in *.
  unfold BillVariant.recommendedSystemSize, SOLAR_YIELD_PER_KW.
  set (c := Math_ceil _). clearbody c.
  qnum.
  destruct (BillVariant.futurePond s), (BillVariant.futurePool s),
    (BillVariant.futureEV s), (BillVariant.hasBattery s);
    qnum; atomize_minmax;
    repeat split; try discriminate; intros; lra.
Qed.

Lemma dailyFlows_balance_witness :
  let s := scenario_bill in
  0 <= BillVariant.batterySize s /\
  exists flows,
    BillVariant.dailyFlows s = Some flows /\
    0 < BillVariant.dailySolar flows /\
    BillVariant.solarUsedDirectly flows + BillVariant.toBattery flows
      + BillVariant.exported flows == BillVariant.dailySolar flows /\
    BillVariant.solarUsedDirectly flows + BillVariant.fromBattery flows
      + BillVariant.imported flows == BillVariant.totalDailyConsumption flows /\
    0 <= BillVariant.solarUsedDirectly flows /\
    0 <= BillVariant.exported flows /\
    0 <= BillVariant.imported flows /\
    0 <= BillVariant.fromBattery flows <= BillVariant.toBattery flows /\
    BillVariant.toBattery flows <= BillVariant.batterySize s /\
    (BillVariant.hasBattery s = false -> BillVariant.toBattery flows == 0) /\
    (BillVariant.hasBattery s = true -> 0 < BillVariant.exported flows ->
     BillVariant.toBattery flows == BillVariant.batterySize s) /\
    (0 < BillVariant.imported flows ->
     BillVariant.fromBattery flows == BillVariant.toBattery flows).
Proof.
  split; [vm_compute; discriminate |].
  apply (dailyFlows_balance scenario_bill). vm_compute. discriminate.
Defined.

End FlowsFacts.

Section MoreComponentFacts.
Import Exact.
Local Open Scope Q_scope.

(** For a configuration in range the battery fill indicator of every
    tick lies between 0 and 100, and with a battery of a positive
    number of units it is 100 whenever energy is exported. *)
Theorem tank_level_between_0_and_100 (s : State Q) (stats : Stats.t Q) :
  in_range s ->
  0 <= Stats.tankLevel (accumulate s stats) <= 100 /\
  (hasBattery s = true -> 0 < batteryUnits s ->
   0 < Formula.dailyExportKwh (computeFormula s) ->
   Stats.tankLevel (accumulate s stats) == 100).
Proof.
  intros Hr.
  destruct (in_range_formula s Hr) as (HA & HB1 & HC1 & Hsum & HG & HH & HJ).
  destruct (computeFormula_inputs s) as (_&_&_&_&_&_&_&_&_&HHdef&_).
  cbv zeta in *. set (f := computeFormula s) in *.
  assert (Hst : 0 <= Formula.dailyStoredKwh f <= Formula.H f * 10
                /\ (0 < Formula.dailyExportKwh f ->
                    Formula.dailyStoredKwh f == Formula.H f * 10)).
  { destruct (billed_energy_cases s)
      as [(Hc & Hk & Hx & Hst) | [(Hc & H0 & Hk & Hx & Hst)
                                 | (Hc & H0 & Hk & Hx & Hst)]];
      fold f in Hc, Hk, Hx, Hst; try fold f in H0;
      atomize_minmax; (split; [split | intros ?]); lra. }
  destruct Hst as ((Hs0 & Hs1) & Hfull).
  unfold accumulate. cbn [Stats.tankLevel]. fold f.
  unfold batteryCapacity, BATTERY_UNIT_KWH.
  destruct (hasBattery s) eqn:Hb; cbn [andb];
    [| qnum; split; [lra | discriminate]].
  change (Formula.H f = batteryUnits s) in HHdef. rewrite HHdef in *.
  set (st := Formula.dailyStoredKwh f) in *.
  case_if Ecap; qnum.
  - to_order.
    set (c := batteryUnits s * 10) in *.
    assert (Hq : 0 <= st / c <= 1).
    { split; [apply Qle_shift_div_l; lra | apply Qle_shift_div_r; lra]. }
    split; [split |].
    + apply Qmult_le_0_compat; lra.
    + setoid_replace 100 with (1 * 100) at 2 by ring.
      apply Qmult_le_compat_r; lra.
    + intros _ _ Hx. rewrite (Hfull Hx). field. lra.
  - to_order.
    split; [lra |]. intros _ Hu. lra.
Qed.

Lemma tank_level_between_0_and_100_witness :
  let s := scenario_surplus (num := Q) in
  in_range s /\
  0 <= Stats.tankLevel (accumulate s initialStats) <= 100 /\
  (hasBattery s = true -> 0 < batteryUnits s ->
   0 < Formula.dailyExportKwh (computeFormula s) ->
   Stats.tankLevel (accumulate s initialStats) == 100).
Proof.
  assert (Hr : in_range (scenario_surplus (num := Q)))
    by (repeat split; vm_compute; discriminate).
  split; [exact Hr |].
  apply (tank_level_between_0_and_100 scenario_surplus initialStats Hr).
Defined.

(** The projected usage of a household whose usage is not negative lies
    between the rounded usage and the rounded usage with all three
    future loads, 1.65 times as much; it does not fall when the usage
    grows or when a future load is switched on. *)
Theorem projected_usage_grows_with_loads (a a' : Audit Q) :
  0 <= monthlyKwh a <= monthlyKwh a' ->
  implb (futureEV a) (futureEV a') = true ->
  implb (futurePool a) (futurePool a') = true ->
  implb (futurePond a) (futurePond a') = true ->
  round (monthlyKwh a) <= adjustedMonthlyKwh a /\
  adjustedMonthlyKwh a <= adjustedMonthlyKwh a' /\
  adjustedMonthlyKwh a' <= round (monthlyKwh a' * 1.65).
Proof.
  intros (H0 & Hle) HEV Hpool Hpond. unfold adjustedMonthlyKwh. cbv zeta.
  destruct (futureEV a), (futureEV a'); try discriminate HEV;
    destruct (futurePool a), (futurePool a'); try discriminate Hpool;
    destruct (futurePond a), (futurePond a'); try discriminate Hpond;
    qnum; (split; [| split]); apply round_mono; lra.
Qed.

Lemma projected_usage_grows_with_loads_witness :
  let a := mkAudit 900 false true false in
  let a' := mkAudit 901 true true false in
  (0 <= monthlyKwh a <= monthlyKwh a') /\
  round (monthlyKwh a) <= adjustedMonthlyKwh a /\
  adjustedMonthlyKwh a <= adjustedMonthlyKwh a' /\
  adjustedMonthlyKwh a' <= round (monthlyKwh a' * 1.65).
Proof.
  assert (H : 0 <= 900 <= 901) by (split; lra).
  split; [exact H |].
  apply (projected_usage_grows_with_loads
           (mkAudit 900 false true false) (mkAudit 901 true true false) H);
    reflexivity.
Defined.

End MoreComponentFacts.

Section FinanceFacts.
Import Exact Finance.
Local Open Scope Q_scope.

Lemma billVariant_size_bounds (s : BillVariant.State (num := Q)) :
  3 <= BillVariant.recommendedSystemSize s <= 15.
Proof.
  unfold BillVariant.recommendedSystemSize. qnum. atomize_minmax. lra.
Qed.

(** The loan figures of the report screen, for a tenure that is positive
    and an interest rate that is not negative: the panel cost lies
    between 8400 and 42000; the principal is not negative, and a subsidy
    that covers the financed amount leaves no installment; the
    installments of the tenure add up to the amount payable; the net
    savings are at most the savings on the bill; with a positive cash
    flow the break-even is immediate, and otherwise, when the bill
    savings are positive, the months to break even are the months of
    bill savings that repay the loan, less the months of the tenure. *)
Theorem loan_figures (s : BillVariant.State (num := Q)) (finance : Finance.t Q)
    (stats : Stats.t Q) :
  let finalReport :=
    BillVariant.calculateFinalReport (BillVariant.currentBill s) stats in
  let months := tenureYears finance * 12 in
  0 < tenureYears finance -> 0 <= interestRate finance ->
  8400 <= panelCost s <= 42000 /\
  0 <= loanPrincipal s finance /\
  (financedAmount s finance <= subsidy finance ->
   monthlyInstallment s finance == 0) /\
  0 <= monthlyInstallment s finance /\
  monthlyInstallment s finance * months == totalLoanPayable s finance /\
  monthlyNetSavings s finance finalReport
  <= Report.monthlySavings finalReport /\
  (isCashflowPositive s finance finalReport = true ->
   breakEvenMonths s finance finalReport = None) /\
  (isCashflowPositive s finance finalReport = false ->
   0 < Report.monthlySavings finalReport ->
   monthsToBreakeven s finance finalReport
   == totalLoanPayable s finance / Report.monthlySavings finalReport
      - months /\
   0 <= monthsToBreakeven s finance finalReport).
Proof.
  intros finalReport months HT HR.
  assert (HP : 0 <= loanPrincipal s finance)
    by (unfold loanPrincipal; qnum; apply Q.le_max_l).
  assert (Hpay : 0 <= totalLoanPayable s finance).
  { unfold totalLoanPayable, totalInterest. qnum.
    assert (0 <= loanPrincipal s finance * (interestRate finance / 100)
                 * tenureYears finance).
    { apply Qmult_le_0_compat; [| lra].
      apply Qmult_le_0_compat; [assumption |].
      apply Qle_shift_div_l; lra. }
    lra. }
  assert (Hm : 0 < months) by (unfold months; lra).
  assert (Hinst : monthlyInstallment s finance * months
                  == totalLoanPayable s finance).
  { unfold monthlyInstallment. qnum. fold months. field. lra. }
  assert (Hinst0 : 0 <= monthlyInstallment s finance).
  { unfold monthlyInstallment. qnum. fold months.
    apply Qle_shift_div_l; lra. }
  assert (Hnet : monthlyNetSavings s finance finalReport
                 == Report.monthlySavings finalReport
                    - monthlyInstallment s finance).
  { unfold monthlyNetSavings, newMonthlyCommitment, finalReport,
      BillVariant.calculateFinalReport.
    cbn [Report.oldBill Report.newBill Report.monthlySavings]. qnum. ring. }
  split.
  { pose proof (billVariant_size_bounds s).
    unfold panelCost, SYSTEM_COST_PER_KW. qnum. lra. }
  split; [exact HP |]. split.
  { intros Hsub.
    assert (E : loanPrincipal s finance == 0).
    { unfold loanPrincipal. qnum. apply Q.max_l. lra. }
    unfold monthlyInstallment, totalLoanPayable, totalInterest. qnum.
    rewrite E. field. lra. }
  split; [exact Hinst0 |]. split; [exact Hinst |].
  split; [lra |]. split.
  { intros Hpos. unfold breakEvenMonths. rewrite Hpos. reflexivity. }
  intros Hneg HS. unfold monthsToBreakeven. rewrite Hneg. cbn [negb].
  unfold isCashflowPositive in Hneg. to_order. qnum. fold months.
  set (S := Report.monthlySavings finalReport) in *.
  set (net := monthlyNetSavings s finance finalReport) in *.
  assert (Habs : Qabs (net * months) == - (net * months)).
  { apply Qabs_neg.
    setoid_replace (net * months) with (- ((- net) * months)) by ring.
    assert (0 <= - net * months) by (apply Qmult_le_0_compat; lra).
    lra. }
  cbn [Math_abs QAbs]. rewrite Habs. split.
  - rewrite <- Hinst, Hnet. field. lra.
  - apply Qle_shift_div_l; [assumption |].
    assert (0 <= - net * months) by (apply Qmult_le_0_compat; lra).
    lra.
Qed.

Lemma loan_figures_witness :
  let s := scenario_bill in
  let finance := initialFinance (num := Q) in
  let finalReport :=
    BillVariant.calculateFinalReport (BillVariant.currentBill s)
      initialStats in
  let months := tenureYears finance * 12 in
  (0 < tenureYears finance /\ 0 <= interestRate finance) /\
  8400 <= panelCost s <= 42000 /\
  0 <= loanPrincipal s finance /\
  (financedAmount s finance <= subsidy finance ->
   monthlyInstallment s finance == 0) /\
  0 <= monthlyInstallment s finance /\
  monthlyInstallment s finance * months == totalLoanPayable s finance /\
  monthlyNetSavings s finance finalReport
  <= Report.monthlySavings finalReport /\
  (isCashflowPositive s finance finalReport = true ->
   breakEvenMonths s finance finalReport = None) /\
  (isCashflowPositive s finance finalReport = false ->
   0 < Report.monthlySavings finalReport ->
   monthsToBreakeven s finance finalReport
   == totalLoanPayable s finance / Report.monthlySavings finalReport
      - months /\
   0 <= monthsToBreakeven s finance finalReport).
Proof.
  split; [split; vm_compute; [reflexivity | discriminate] |].
  apply (loan_figures scenario_bill initialFinance initialStats);
    vm_compute; [reflexivity | discriminate].
Defined.

End FinanceFacts.
